(** * Hand-tracking gesture engine (day_5_the_homecoming_board)

    A shallow embedding of
    - [src/hand_tracking/hand_tracker.py]: classes [HandTracker] and
      [GestureController];
    - [examples/advanced_gestures.py]: class [AdvancedGestureRecognizer];
    and the properties the specification states about them.

    Python integers are [Z]; a landmark is a pair of integers; a Python
    exception is the [Raise] alternative of [res]; methods that mutate
    [self] take the object and return it next to their result. *)

From Stdlib Require Import ZArith QArith List String Bool Lia.
Import ListNotations.

Local Open Scope string_scope.
Local Open Scope Z_scope.

(* ================================================================== *)
(** ** Python primitives *)
(* ================================================================== *)

Module Py.

(** The exceptions of the development: the three built-in ones the code can
    raise, and the two the specification names, which no line of the code
    raises. *)
Inductive exn : Type :=
| IndexError
| ZeroDivisionError
| ValueError
| InvalidFrameError
| EmptyInputError.

Inductive res (A : Type) : Type :=
| OK (a : A)
| Raise (e : exn).

Arguments OK {A} a.
Arguments Raise {A} e.

Definition bind {A B : Type} (m : res A) (k : A -> res B) : res B :=
  match m with
  | OK a => k a
  | Raise e => Raise e
  end.

Definition is_ok {A : Type} (m : res A) : bool :=
  match m with OK _ => true | Raise _ => false end.

(** [len(l)] *)
Definition len {A : Type} (l : list A) : Z := Z.of_nat (List.length l).

(** [l[i]]: indices [0 .. len-1] count from the front, [-len .. -1] from the
    back, anything else raises [IndexError]. *)
Definition getitem {A : Type} (l : list A) (i : Z) : res A :=
  let j := if i <? 0 then len l + i else i in
  if j <? 0 then Raise IndexError
  else match nth_error l (Z.to_nat j) with
       | Some a => OK a
       | None => Raise IndexError
       end.

(** [a // b] on integers: floor division. *)
Definition floordiv (a b : Z) : res Z :=
  if b =? 0 then Raise ZeroDivisionError else OK (a / b).

(** [sum(l)] *)
Definition sum (l : list Z) : Z := fold_left Z.add l 0.

(** [min(l)] and [max(l)] on a list of integers; an empty argument raises
    [ValueError]. *)
Definition min (l : list Z) : res Z :=
  match l with
  | [] => Raise ValueError
  | x :: r => OK (fold_left Z.min r x)
  end.

Definition max (l : list Z) : res Z :=
  match l with
  | [] => Raise ValueError
  | x :: r => OK (fold_left Z.max r x)
  end.

(** [max(it, key=k)]: the first element of the iteration whose key is not
    exceeded by any other; the running best is replaced only by a strictly
    greater key. *)
Definition max_key {A : Type} (k : A -> Z) (it : list A) : res A :=
  match it with
  | [] => Raise ValueError
  | x :: r => OK (fold_left (fun best y => if k best <? k y then y else best) r x)
  end.

(** [l.count(x)] on a list of strings *)
Definition count (l : list string) (x : string) : Z :=
  Z.of_nat (count_occ string_dec l x).

(** [l[-n:]] for [n > 0] *)
Definition last_n {A : Type} (n : nat) (l : list A) : list A :=
  skipn (List.length l - n) l.

(** [l.pop(0)] as far as the list left behind goes. *)
Definition pop0 {A : Type} (l : list A) : list A := tl l.

(** [x in d] and [d[x]] for a dict held as an association list. *)
Fixpoint dict_get {V : Type} (d : list (string * V)) (x : string) : option V :=
  match d with
  | [] => None
  | (k, v) :: r => if String.eqb x k then Some v else dict_get r x
  end.

(** Iteration order of [set(l)] for a list of strings.  CPython orders a set
    by the hashes of its members, and string hashes are salted per process,
    so the order is left open: any duplicate-free enumeration of the members
    of [l]. *)
Record SetOrder : Type := {
  set_iter : list string -> list string;
  set_iter_In : forall l x, In x (set_iter l) <-> In x l;
  set_iter_NoDup : forall l, NoDup (set_iter l)
}.

End Py.

Import Py.

Declare Scope res_scope.
Delimit Scope res_scope with res.
Notation "'do' x <- m ; k" := (Py.bind m (fun x => k))
  (at level 10, x name, m at level 100, k at level 200) : res_scope.
Local Open Scope res_scope.

(** A landmark: [(x, y)] in pixels. *)
Definition point : Type := (Z * Z)%type.

(* ================================================================== *)
(** ** class HandTracker *)
(* ================================================================== *)

Module HandTracker.

(** The two attributes of a tracker that gesture recognition reads and
    writes.  The MediaPipe handles set up by [__init__] play no part in the
    methods embedded here. *)
Record state : Type := {
  gesture_history : list string;
  gesture_buffer_size : Z
}.

(** [HandTracker()] *)
Definition init : state :=
  {| gesture_history := []; gesture_buffer_size := 5 |}.

(** Hand landmark indices *)
Definition THUMB_TIP : Z := 4.
Definition THUMB_IP : Z := 3.
Definition THUMB_MCP : Z := 2.
Definition INDEX_TIP : Z := 8.
Definition INDEX_PIP : Z := 6.
Definition INDEX_MCP : Z := 5.
Definition MIDDLE_TIP : Z := 12.
Definition MIDDLE_PIP : Z := 10.
Definition MIDDLE_MCP : Z := 9.
Definition RING_TIP : Z := 16.
Definition RING_PIP : Z := 14.
Definition RING_MCP : Z := 13.
Definition PINKY_TIP : Z := 20.
Definition PINKY_PIP : Z := 18.
Definition PINKY_MCP : Z := 17.
Definition WRIST : Z := 0.

(** [landmarks[a][0] > landmarks[b][0]] *)
Definition x_gt (landmarks : list point) (a b : Z) : res bool :=
  do p <- getitem landmarks a;
  do q <- getitem landmarks b;
  OK (fst q <? fst p).

(** [landmarks[a][1] < landmarks[b][1]] *)
Definition y_lt (landmarks : list point) (a b : Z) : res bool :=
  do p <- getitem landmarks a;
  do q <- getitem landmarks b;
  OK (snd p <? snd q).

(** [landmarks[a][1] > landmarks[b][1]] *)
Definition y_gt (landmarks : list point) (a b : Z) : res bool :=
  do p <- getitem landmarks a;
  do q <- getitem landmarks b;
  OK (snd q <? snd p).

Definition is_finger_up (landmarks : list point) (finger : string) : res bool :=
  if String.eqb finger "thumb" then x_gt landmarks THUMB_TIP THUMB_IP
  else if String.eqb finger "index" then y_lt landmarks INDEX_TIP INDEX_PIP
  else if String.eqb finger "middle" then y_lt landmarks MIDDLE_TIP MIDDLE_PIP
  else if String.eqb finger "ring" then y_lt landmarks RING_TIP RING_PIP
  else if String.eqb finger "pinky" then y_lt landmarks PINKY_TIP PINKY_PIP
  else OK false.

(** The [for finger in fingers] loop of [count_fingers]. *)
Fixpoint count_loop (landmarks : list point) (fingers : list string) (count : Z)
  : res Z :=
  match fingers with
  | [] => OK count
  | finger :: rest =>
      do up <- is_finger_up landmarks finger;
      count_loop landmarks rest (if up then count + 1 else count)
  end.

Definition count_fingers (landmarks : list point) : res Z :=
  let fingers := ["thumb"; "index"; "middle"; "ring"; "pinky"] in
  count_loop landmarks fingers 0.

(** The first half of [recognize_gesture]: the label computed from the
    frame alone, before it enters the history. *)
Definition raw_gesture (landmarks : list point) : res string :=
  do finger_count <- count_fingers landmarks;
  if finger_count =? 0 then OK "fist"
  else if finger_count =? 1 then
    do i <- is_finger_up landmarks "index";
    if i then OK "point"
    else
      do t <- is_finger_up landmarks "thumb";
      if t then OK "thumbs_up" else OK "one"
  else if finger_count =? 2 then
    do i <- is_finger_up landmarks "index";
    do m <- (if i then is_finger_up landmarks "middle" else OK false);
    if i && m then OK "peace" else OK "two"
  else if finger_count =? 3 then OK "three"
  else if finger_count =? 4 then OK "four"
  else if finger_count =? 5 then OK "open_hand"
  else OK "unknown".

(** [max(set(self.gesture_history), key=self.gesture_history.count)] *)
Definition most_common (so : SetOrder) (history : list string) : res string :=
  max_key (count history) (set_iter so history).

(** [recognize_gesture]: the result (or the exception) and the tracker as
    the call leaves it. *)
Definition recognize_gesture (so : SetOrder) (self : state)
    (landmarks : list point) : res string * state :=
  match raw_gesture landmarks with
  | Raise e => (Raise e, self)
  | OK gesture =>
      let appended := (gesture_history self ++ [gesture])%list in
      let history :=
        if gesture_buffer_size self <? len appended
        then pop0 appended else appended in
      let self' := {| gesture_history := history;
                      gesture_buffer_size := gesture_buffer_size self |} in
      match history with
      | _ :: _ => (most_common so history, self')
      | [] => (OK gesture, self')
      end
  end.

(** Successive calls of [recognize_gesture], one per frame; the results in
    call order and the tracker after the last call. *)
Fixpoint run (so : SetOrder) (self : state) (frames : list (list point))
  : list (res string) * state :=
  match frames with
  | [] => ([], self)
  | f :: rest =>
      let (r, self1) := recognize_gesture so self f in
      let (rs, self2) := run so self1 rest in
      (r :: rs, self2)
  end.

Definition get_hand_center (landmarks : list point) : res point :=
  let x_coords := map fst landmarks in
  let y_coords := map snd landmarks in
  do center_x <- floordiv (sum x_coords) (len x_coords);
  do center_y <- floordiv (sum y_coords) (len y_coords);
  OK (center_x, center_y).

Definition get_bounding_box (landmarks : list point) : res (Z * Z * Z * Z) :=
  let x_coords := map fst landmarks in
  let y_coords := map snd landmarks in
  do x_min <- Py.min x_coords;
  do x_max <- Py.max x_coords;
  do y_min <- Py.min y_coords;
  do y_max <- Py.max y_coords;
  OK (x_min, y_min, x_max, y_max).

End HandTracker.

(* ================================================================== *)
(** ** class GestureController *)
(* ================================================================== *)

Module GestureController.

(** Clock readings ([time.time()]) and durations are rationals: the float
    subtraction of two readings within a factor two of each other is exact,
    and no other rounding takes place.  [process_gesture] reads the clock
    once, on entry: the reading is an argument here. *)
Record state : Type := {
  last_gesture : option string;
  gesture_start_time : option Q;
  min_gesture_duration : Q
}.

Definition on_fist (landmarks : list point) : string :=
  "Fist detected - Action: Reset".
Definition on_open_hand (landmarks : list point) : string :=
  "Open hand detected - Action: Stop/Pause".
Definition on_point (landmarks : list point) : string :=
  "Point detected - Action: Select/Click".
Definition on_peace (landmarks : list point) : string :=
  "Peace sign detected - Action: Victory/Confirm".
Definition on_thumbs_up (landmarks : list point) : string :=
  "Thumbs up detected - Action: Approve/Like".
Definition on_one (landmarks : list point) : string :=
  "One finger detected - Action: Option 1".
Definition on_two (landmarks : list point) : string :=
  "Two fingers detected - Action: Option 2".
Definition on_three (landmarks : list point) : string :=
  "Three fingers detected - Action: Option 3".
Definition on_four (landmarks : list point) : string :=
  "Four fingers detected - Action: Option 4".

Definition gesture_actions : list (string * (list point -> string)) :=
  [ ("fist", on_fist);
    ("open_hand", on_open_hand);
    ("point", on_point);
    ("peace", on_peace);
    ("thumbs_up", on_thumbs_up);
    ("one", on_one);
    ("two", on_two);
    ("three", on_three);
    ("four", on_four) ].

(** [GestureController()] *)
Definition init : state :=
  {| last_gesture := None;
     gesture_start_time := None;
     min_gesture_duration := 1 |}.

(** [gesture != self.last_gesture], a string against a string or [None] *)
Definition differs (gesture : string) (last : option string) : bool :=
  match last with
  | None => true
  | Some g => negb (String.eqb gesture g)
  end.

(** [self.gesture_start_time and
     current_time - self.gesture_start_time >= self.min_gesture_duration]:
    [None] and the reading [0.0] are both false in a condition. *)
Definition held_long_enough (self : state) (current_time : Q) : bool :=
  match gesture_start_time self with
  | None => false
  | Some start =>
      negb (Qeq_bool start 0)
      && Qle_bool (min_gesture_duration self) (current_time - start)
  end.

Definition process_gesture (self : state) (current_time : Q)
    (gesture : string) (landmarks : list point) : option string * state :=
  if differs gesture (last_gesture self) then
    (None, {| last_gesture := Some gesture;
              gesture_start_time := Some current_time;
              min_gesture_duration := min_gesture_duration self |})
  else if held_long_enough self current_time then
    match dict_get gesture_actions gesture with
    | Some action =>
        (Some (action landmarks),
         {| last_gesture := last_gesture self;
            gesture_start_time := None;
            min_gesture_duration := min_gesture_duration self |})
    | None => (None, self)
    end
  else (None, self).

(** One call: the clock reading on entry and the two arguments. *)
Record call : Type := {
  at_time : Q;
  gesture : string;
  landmarks : list point
}.

(** Successive calls of [process_gesture]: results in call order and the
    controller after the last one. *)
Fixpoint run (self : state) (calls : list call) : list (option string) * state :=
  match calls with
  | [] => ([], self)
  | c :: rest =>
      let (r, self1) := process_gesture self (at_time c) (gesture c) (landmarks c) in
      let (rs, self2) := run self1 rest in
      (r :: rs, self2)
  end.

(** Number of results that are not [None]. *)
Fixpoint fired (results : list (option string)) : nat :=
  match results with
  | [] => 0%nat
  | Some _ :: rest => S (fired rest)
  | None :: rest => fired rest
  end.

(** A hold: the same label on every call, one call per clock reading. *)
Definition hold (g : string) (lm : list point) (times : list Q) : list call :=
  map (fun t => {| at_time := t; gesture := g; landmarks := lm |}) times.

End GestureController.

(* ================================================================== *)
(** ** class AdvancedGestureRecognizer *)
(* ================================================================== *)

(** Python floats, as far as the detectors use them.  The swipe detectors
    use integers only; the others go through this interface, which is left
    uninterpreted. *)
Class FloatOps : Type := {
  float : Type;
  of_int : Z -> float;
  fadd : float -> float -> float;
  fsub : float -> float -> float;
  fdiv : float -> float -> float;
  fsquare : float -> float;          (* [x**2] *)
  fsqrt : float -> float;            (* [math.sqrt] *)
  flt : float -> float -> bool       (* [x < y] *)
}.

Module AdvancedGestureRecognizer.

Section Detectors.

Context {F : FloatOps}.

Record state : Type := {
  hand_positions_history : list point;
  position_history_size : Z
}.

(** [AdvancedGestureRecognizer()] *)
Definition init : state :=
  {| hand_positions_history := []; position_history_size := 30 |}.

Definition get_hand_center (landmarks : list point) : res point :=
  let x_coords := map fst landmarks in
  let y_coords := map snd landmarks in
  do cx <- floordiv (sum x_coords) (len x_coords);
  do cy <- floordiv (sum y_coords) (len y_coords);
  OK (cx, cy).

Definition calculate_hand_velocity (self : state) (landmarks : list point)
  : res (Z * Z) :=
  if len (hand_positions_history self) <? 2 then OK (0, 0)
  else
    do current_center <- get_hand_center landmarks;
    do prev_center <- getitem (hand_positions_history self) (-1);
    let velocity_x := fst current_center - fst prev_center in
    let velocity_y := snd current_center - snd prev_center in
    OK (velocity_x, velocity_y).

Definition detect_swipe_right (self : state) (landmarks : list point) : res bool :=
  do velocity <- calculate_hand_velocity self landmarks;
  OK ((20 <? fst velocity) && (Z.abs (snd velocity) <? 10)).

Definition detect_swipe_left (self : state) (landmarks : list point) : res bool :=
  do velocity <- calculate_hand_velocity self landmarks;
  OK ((fst velocity <? -20) && (Z.abs (snd velocity) <? 10)).

(** [math.sqrt((p[0] - q[0])**2 + (p[1] - q[1])**2)] on integer points *)
Definition dist (p q : point) : float :=
  fsqrt (of_int ((fst p - fst q) ^ 2 + (snd p - snd q) ^ 2)).

Definition detect_pinch (self : state) (landmarks : list point) : res bool :=
  do thumb_tip <- getitem landmarks 4;
  do index_tip <- getitem landmarks 8;
  let distance := dist thumb_tip index_tip in
  OK (flt distance (of_int 30)).

(** The loop of [detect_spread] over adjacent fingertips. *)
Fixpoint spread_loop (fingertips : list point) (total_spread : float) : float :=
  match fingertips with
  | p :: ((q :: _) as rest) => spread_loop rest (fadd total_spread (dist p q))
  | _ => total_spread
  end.

Definition detect_spread (self : state) (landmarks : list point) : res bool :=
  do t <- getitem landmarks 4;
  do i <- getitem landmarks 8;
  do m <- getitem landmarks 12;
  do r <- getitem landmarks 16;
  do p <- getitem landmarks 20;
  let fingertips := [t; i; m; r; p] in
  let total_spread := spread_loop fingertips (of_int 0) in
  OK (flt (of_int 300) total_spread).

(** The loop of [detect_wave]: one step per interior position. *)
Fixpoint wave_loop (x_positions : list Z) (velocity_changes : Z) : Z :=
  match x_positions with
  | a :: ((b :: c :: _) as rest) =>
      wave_loop rest
        (if ((a <? b) && (c <? b)) || ((b <? a) && (b <? c))
         then velocity_changes + 1 else velocity_changes)
  | _ => velocity_changes
  end.

Definition detect_wave (self : state) (landmarks : list point) : res bool :=
  if len (hand_positions_history self) <? 20 then OK false
  else
    let x_positions := map fst (last_n 20 (hand_positions_history self)) in
    OK (3 <? wave_loop x_positions 0).

(** [sum(l)] on floats: the integer [0] plus the members, left to right. *)
Definition fsum (l : list float) : float := fold_left fadd l (of_int 0).

Definition detect_circle (self : state) (landmarks : list point) : res bool :=
  if len (hand_positions_history self) <? 15 then OK false
  else
    let positions := last_n 15 (hand_positions_history self) in
    let center_x := fdiv (of_int (sum (map fst positions))) (of_int (len positions)) in
    let center_y := fdiv (of_int (sum (map snd positions))) (of_int (len positions)) in
    let radii :=
      map (fun pos =>
             fsqrt (fadd (fsquare (fsub (of_int (fst pos)) center_x))
                         (fsquare (fsub (of_int (snd pos)) center_y))))
          positions in
    match radii with
    | _ :: _ =>
        let avg_radius := fdiv (fsum radii) (of_int (len radii)) in
        let variance :=
          fdiv (fsum (map (fun r => fsquare (fsub r avg_radius)) radii))
               (of_int (len radii)) in
        OK (flt variance (of_int 1000) && flt (of_int 30) avg_radius)
    | [] => OK false
    end.

Definition detect_ok_sign (self : state) (landmarks : list point) : res bool :=
  do thumb_tip <- getitem landmarks 4;
  do index_tip <- getitem landmarks 8;
  do thumb_ip <- getitem landmarks 3;
  do index_pip <- getitem landmarks 6;
  let tip_distance := dist thumb_tip index_tip in
  do middle_up <- HandTracker.y_lt landmarks 12 10;
  do ring_up <- HandTracker.y_lt landmarks 16 14;
  do pinky_up <- HandTracker.y_lt landmarks 20 18;
  OK (flt tip_distance (of_int 30) && middle_up && ring_up && pinky_up).

Definition detect_rock_on (self : state) (landmarks : list point) : res bool :=
  do index_up <- HandTracker.y_lt landmarks 8 6;
  do middle_down <- HandTracker.y_gt landmarks 12 10;
  do ring_down <- HandTracker.y_gt landmarks 16 14;
  do pinky_up <- HandTracker.y_lt landmarks 20 18;
  OK (index_up && middle_down && ring_down && pinky_up).

(** [self.gesture_patterns], in insertion order. *)
Definition gesture_patterns
  : list (string * (state -> list point -> res bool)) :=
  [ ("swipe_right", detect_swipe_right);
    ("swipe_left", detect_swipe_left);
    ("pinch", detect_pinch);
    ("spread", detect_spread);
    ("wave", detect_wave);
    ("circle", detect_circle);
    ("ok_sign", detect_ok_sign);
    ("rock_on", detect_rock_on) ].

(** The loop of [recognize_advanced_gestures] over the detectors. *)
Fixpoint detect_loop (self : state) (landmarks : list point)
    (patterns : list (string * (state -> list point -> res bool)))
    (detected_gestures : list string) : res (list string) :=
  match patterns with
  | [] => OK detected_gestures
  | (gesture_name, detector) :: rest =>
      do hit <- detector self landmarks;
      detect_loop self landmarks rest
        (if hit then (detected_gestures ++ [gesture_name])%list
         else detected_gestures)
  end.

(** The first half of [recognize_advanced_gestures]: the position history
    takes the centre of the frame. *)
Definition update_history (self : state) (center : point) : state :=
  let appended := (hand_positions_history self ++ [center])%list in
  {| hand_positions_history :=
       if position_history_size self <? len appended
       then pop0 appended else appended;
     position_history_size := position_history_size self |}.

Definition recognize_advanced_gestures (self : state) (landmarks : list point)
  : res (list string) * state :=
  match get_hand_center landmarks with
  | Raise e => (Raise e, self)
  | OK center =>
      let self' := update_history self center in
      (detect_loop self' landmarks gesture_patterns [], self')
  end.

End Detectors.

End AdvancedGestureRecognizer.

(* ================================================================== *)
(** ** Test fixtures and the specification's vocabulary *)
(* ================================================================== *)

(** The five booleans of the specification's data model. *)
Record FingerState : Type := {
  thumb : bool;
  index : bool;
  middle : bool;
  ring : bool;
  pinky : bool
}.

(** The finger state of a frame: [is_finger_up] for each finger. *)
Definition finger_state (landmarks : list point) : res FingerState :=
  do t <- HandTracker.is_finger_up landmarks "thumb";
  do i <- HandTracker.is_finger_up landmarks "index";
  do m <- HandTracker.is_finger_up landmarks "middle";
  do r <- HandTracker.is_finger_up landmarks "ring";
  do p <- HandTracker.is_finger_up landmarks "pinky";
  OK {| thumb := t; index := i; middle := m; ring := r; pinky := p |}.

(** Number of fingers up. *)
Definition up_count (fs : FingerState) : Z :=
  Z.b2z (thumb fs) + Z.b2z (index fs) + Z.b2z (middle fs)
  + Z.b2z (ring fs) + Z.b2z (pinky fs).

(** The precedence table of the specification (section 4.3), top to bottom. *)
Definition precedence : list ((FingerState -> bool) * string) :=
  [ (fun fs => up_count fs =? 0, "fist");
    (fun fs => (up_count fs =? 1) && index fs, "point");
    (fun fs => (up_count fs =? 1) && thumb fs, "thumbs_up");
    (fun fs => up_count fs =? 1, "one");
    (fun fs => (up_count fs =? 2) && index fs && middle fs, "peace");
    (fun fs => up_count fs =? 2, "two");
    (fun fs => up_count fs =? 3, "three");
    (fun fs => up_count fs =? 4, "four");
    (fun fs => up_count fs =? 5, "open_hand") ].

(** First match wins; no match is [unknown]. *)
Fixpoint first_match (rules : list ((FingerState -> bool) * string))
    (fs : FingerState) : string :=
  match rules with
  | [] => "unknown"
  | (guard, label) :: rest => if guard fs then label else first_match rest fs
  end.

Definition static_label (fs : FingerState) : string := first_match precedence fs.

(** The nine named labels. *)
Definition named_labels : list string :=
  ["fist"; "point"; "thumbs_up"; "one"; "two"; "peace"; "three"; "four";
   "open_hand"].

(** A 21-landmark frame with the given fingers up. *)
Definition frame_of (t i m r p : bool) : list point :=
  let tip (b : bool) := if b then 0 else 20 in
  [ (0, 0); (0, 0); (0, 0);
    (0, 10);                        (* 3: THUMB_IP *)
    ((if t then 5 else 0), 10);     (* 4: THUMB_TIP *)
    (0, 0);
    (0, 10);                        (* 6: INDEX_PIP *)
    (0, 0);
    (0, tip i);                     (* 8: INDEX_TIP *)
    (0, 0);
    (0, 10);                        (* 10: MIDDLE_PIP *)
    (0, 0);
    (0, tip m);                     (* 12: MIDDLE_TIP *)
    (0, 0);
    (0, 10);                        (* 14: RING_PIP *)
    (0, 0);
    (0, tip r);                     (* 16: RING_TIP *)
    (0, 0);
    (0, 10);                        (* 18: PINKY_PIP *)
    (0, 0);
    (0, tip p) ].                   (* 20: PINKY_TIP *)

Definition fist_frame : list point := frame_of false false false false false.
Definition point_frame : list point := frame_of false true false false false.
Definition open_frame : list point := frame_of true true true true true.

(** A frame of 22 landmarks: the fist frame and one more point. *)
Definition long_frame : list point := (fist_frame ++ [(7, 7)])%list.

(** Clock readings, in seconds, of the calls of a hold and of what follows
    it in the examples. *)
Definition hold_times : list Q := [100; 100.5; 101; 101.5]%Q.
Definition hold_until_fired : list Q := [100; 100.5; 101]%Q.
Definition hold_on : list Q := [101.5; 102; 110]%Q.
Definition second_hold : list Q := [102.5; 104]%Q.

(** The square of the specification's geometry example. *)
Definition square : list point := [(0, 0); (10, 0); (10, 10); (0, 10)].

(** The two points of the repository's test [test_minimal_landmarks]. *)
Definition minimal_landmarks : list point := [(0, 0); (1, 1)].

(** Arithmetic mean of a non-empty list of integers. *)
Definition mean (l : list Z) : Q := Qmake (sum l) (Z.to_pos (len l)).

Module AGR := AdvancedGestureRecognizer.

(** Velocity as the specification words it (section 4.4): the difference
    between the two most recent centres of the history, [(0,0)] with fewer
    than two samples. *)
Definition velocity_of_history (h : list point) : Z * Z :=
  match rev h with
  | c :: p :: _ => (fst c - fst p, snd c - snd p)
  | _ => (0, 0)
  end.

(** The swipe conditions of the specification (section 4.5) on that
    velocity. *)
Definition swipe_right_expected (h : list point) : bool :=
  (20 <? fst (velocity_of_history h))
  && (Z.abs (snd (velocity_of_history h)) <? 10).

Definition swipe_left_expected (h : list point) : bool :=
  (fst (velocity_of_history h) <? -20)
  && (Z.abs (snd (velocity_of_history h)) <? 10).

(** A hand at rest at the origin, the same hand 30 pixels to the right,
    and 30 pixels to the left. *)
Definition rest_frame : list point := repeat (0, 0) 21.
Definition moved_frame : list point := repeat (30, 0) 21.
Definition moved_left_frame : list point := repeat (-30, 0) 21.

(** The recognizer after two frames of the hand at rest. *)
Definition resting : AGR.state :=
  {| AGR.hand_positions_history := [(0, 0); (0, 0)];
     AGR.position_history_size := 30 |}.

Module GC := GestureController.

(** The controller once an action has fired for [g]: the label is kept and
    the start time is cleared. *)
Definition disarmed (g : string) (st : GC.state) : Prop :=
  GC.last_gesture st = Some g /\ GC.gesture_start_time st = None.

(** The controller while [g] is held and has not fired yet. *)
Definition armed (g : string) (start : Q) (st : GC.state) : Prop :=
  GC.last_gesture st = Some g /\ GC.gesture_start_time st = Some start.

(** The members of a list in first-seen order. *)
Fixpoint first_seen (l : list string) : list string :=
  match l with
  | [] => []
  | x :: r => x :: filter (fun y => negb (String.eqb y x)) (first_seen r)
  end.

(** The stabilizer as the specification words it (section 4.6): highest
    count, ties to the label seen first in the window. *)
Definition stabilized_first_seen (window : list string) : res string :=
  max_key (count window) (first_seen window).

(* ================================================================== *)
(** ** Two admissible set orders *)
(* ================================================================== *)

Lemma first_seen_In (l : list string) (x : string) :
  In x (first_seen l) <-> In x l.
Proof.
  induction l as [|a r IH]; simpl; [tauto|].
  rewrite filter_In, IH, negb_true_iff, String.eqb_neq.
  destruct (string_dec a x) as [->|Hne]; [tauto|].
  split; [tauto|]. intros [H|H]; [tauto|]. right. split; [exact H|congruence].
Qed.

Lemma first_seen_NoDup (l : list string) : NoDup (first_seen l).
Proof.
  induction l as [|a r IH]; simpl; constructor.
  - rewrite filter_In, String.eqb_refl. simpl. intros [_ H]. discriminate.
  - apply NoDup_filter, IH.
Qed.

(** Members in first-seen order. *)
Definition first_seen_order : SetOrder :=
  {| set_iter := first_seen;
     set_iter_In := first_seen_In;
     set_iter_NoDup := first_seen_NoDup |}.

Lemma last_seen_In (l : list string) (x : string) :
  In x (rev (first_seen l)) <-> In x l.
Proof. rewrite <- in_rev. apply first_seen_In. Qed.

Lemma last_seen_NoDup (l : list string) : NoDup (rev (first_seen l)).
Proof. apply NoDup_rev, first_seen_NoDup. Qed.

(** Members in the reverse of first-seen order. *)
Definition last_seen_order : SetOrder :=
  {| set_iter := fun l => rev (first_seen l);
     set_iter_In := last_seen_In;
     set_iter_NoDup := last_seen_NoDup |}.

(* ================================================================== *)
(** ** Geometry utilities *)
(* ================================================================== *)

Lemma len_pos {A : Type} (l : list A) : l <> [] -> 0 < len l.
Proof. destruct l; [congruence|]. unfold len. simpl. lia. Qed.

Lemma len_map {A B : Type} (f : A -> B) (l : list A) : len (map f l) = len l.
Proof. unfold len. now rewrite length_map. Qed.

Lemma floordiv_pos (a b : Z) : 0 < b -> floordiv a b = OK (a / b).
Proof.
  intros H. unfold floordiv. destruct (Z.eqb_spec b 0); [lia|reflexivity].
Qed.

(** On a non-empty list the centre is the pair of floor quotients. *)
Lemma get_hand_center_nonempty (lm : list point) :
  lm <> [] ->
  HandTracker.get_hand_center lm
  = OK (sum (map fst lm) / len lm, sum (map snd lm) / len lm).
Proof.
  intros H. unfold HandTracker.get_hand_center.
  rewrite !len_map, !floordiv_pos by now apply len_pos.
  reflexivity.
Qed.

(** [n <= s/p < n + 1] in the rationals, from the integer quotient. *)
Lemma floor_of_mean (s n : Z) :
  0 < n ->
  (inject_Z (s / n) <= Qmake s (Z.to_pos n)
   /\ Qmake s (Z.to_pos n) < inject_Z (s / n) + 1)%Q.
Proof.
  intros Hn.
  pose proof (Z.mul_div_le s n Hn) as Hlo.
  pose proof (Z.mul_succ_div_gt s n Hn) as Hhi.
  unfold Qle, Qlt, Qplus, inject_Z. simpl.
  rewrite Z2Pos.id by exact Hn. nia.
Qed.

(** C8 (refuted as stated): on the empty landmark list neither geometry
    utility fails with [EmptyInputError]. *)
Lemma empty_input_error_not_raised :
  HandTracker.get_hand_center [] <> Raise EmptyInputError
  /\ HandTracker.get_bounding_box [] <> Raise EmptyInputError.
Proof. split; discriminate. Qed.

(** C8 (amended): on the empty landmark list [get_hand_center] fails with
    [ZeroDivisionError], the fault of its integer division, and
    [get_bounding_box] fails with [ValueError], raised by [min] on an empty
    sequence; the empty list is the only input on which either fails. *)
Theorem empty_landmarks_raise :
  HandTracker.get_hand_center [] = Raise ZeroDivisionError
  /\ HandTracker.get_bounding_box [] = Raise ValueError
  /\ (forall lm e, HandTracker.get_hand_center lm = Raise e ->
                   lm = [] /\ e = ZeroDivisionError)
  /\ (forall lm e, HandTracker.get_bounding_box lm = Raise e ->
                   lm = [] /\ e = ValueError).
Proof.
  repeat split; try reflexivity.
  - destruct lm as [|p r]; [reflexivity|].
    rewrite get_hand_center_nonempty in H by discriminate. discriminate.
  - destruct lm as [|p r]; [cbv in H; congruence|].
    rewrite get_hand_center_nonempty in H by discriminate. discriminate.
  - destruct lm as [|p r]; [reflexivity|]. discriminate.
  - destruct lm as [|p r]; [cbv in H; congruence|]. discriminate.
Qed.

Lemma empty_landmarks_raise_witness :
  (@nil point = [] /\ ZeroDivisionError = ZeroDivisionError)
  /\ (@nil point = [] /\ ValueError = ValueError).
Proof.
  destruct empty_landmarks_raise as (_ & _ & Hc & Hb). split.
  - apply (Hc [] ZeroDivisionError). reflexivity.
  - apply (Hb [] ValueError). reflexivity.
Defined.

(** C9 (refuted as stated): the centre of [(0,0), (1,1)] is [(0,0)], as the
    repository's test [test_minimal_landmarks] expects, while the arithmetic
    mean of each coordinate is 1/2. *)
Lemma center_is_not_the_mean :
  HandTracker.get_hand_center minimal_landmarks = OK (0, 0)
  /\ ~ (inject_Z 0 == mean (map fst minimal_landmarks))%Q
  /\ ~ (inject_Z 0 == mean (map snd minimal_landmarks))%Q.
Proof. repeat split; intros H; discriminate H. Qed.

(** C9 (amended): for every non-empty list of points [get_hand_center]
    returns the floor of the arithmetic mean of the x coordinates and the
    floor of the arithmetic mean of the y coordinates (integer floor
    division of the coordinate sum by the number of points); the centre of
    the square [(0,0), (10,0), (10,10), (0,10)] is [(5,5)] and its bounding
    box is [(0,0,10,10)]. *)
Theorem center_is_floor_of_mean (lm : list point) :
  lm <> [] ->
  (exists cx cy : Z,
      HandTracker.get_hand_center lm = OK (cx, cy)
      /\ (inject_Z cx <= mean (map fst lm) < inject_Z cx + 1)%Q
      /\ (inject_Z cy <= mean (map snd lm) < inject_Z cy + 1)%Q)
  /\ HandTracker.get_hand_center square = OK (5, 5)
  /\ HandTracker.get_bounding_box square = OK (0, 0, 10, 10).
Proof.
  intros H. split; [|split; reflexivity].
  exists (sum (map fst lm) / len lm), (sum (map snd lm) / len lm).
  split; [now apply get_hand_center_nonempty|].
  unfold mean. rewrite !len_map.
  split; apply floor_of_mean, len_pos, H.
Qed.

Lemma center_is_floor_of_mean_witness :
  (exists cx cy : Z,
      HandTracker.get_hand_center minimal_landmarks = OK (cx, cy)
      /\ (inject_Z cx <= mean (map fst minimal_landmarks) < inject_Z cx + 1)%Q
      /\ (inject_Z cy <= mean (map snd minimal_landmarks) < inject_Z cy + 1)%Q)
  /\ HandTracker.get_hand_center square = OK (5, 5)
  /\ HandTracker.get_bounding_box square = OK (0, 0, 10, 10).
Proof. apply (center_is_floor_of_mean minimal_landmarks). discriminate. Defined.

(* ================================================================== *)
(** ** [max] with a key, and the most common label *)
(* ================================================================== *)

Section MaxKey.

Context {A : Type} (k : A -> Z).

Let step (best y : A) : A := if k best <? k y then y else best.

(** The fold of [max_key] stops at the first member with the greatest key. *)
Lemma max_key_fold (r : list A) (best : A) :
  exists pre post,
    best :: r = (pre ++ fold_left step r best :: post)%list
    /\ (forall x, In x pre -> k x < k (fold_left step r best))
    /\ (forall x, In x post -> k x <= k (fold_left step r best)).
Proof.
  revert best. induction r as [|y r IH]; intros best.
  - exists [], []. simpl. repeat split; intros x [].
  - simpl. remember (step best y) as s eqn:Es. unfold step in Es.
    destruct (Z.ltb_spec (k best) (k y)) as [Hlt|Hge]; subst s.
    + destruct (IH y) as (pre & post & E & Hpre & Hpost).
      exists (best :: pre), post. split; [simpl; now rewrite E|].
      split; [|exact Hpost].
      intros x [<-|Hx]; [|now apply Hpre].
      assert (Hy : In y (pre ++ fold_left step r y :: post)%list)
        by (rewrite <- E; now left).
      apply in_app_or in Hy. destruct Hy as [Hy|[Hy|Hy]].
      * specialize (Hpre _ Hy). lia.
      * rewrite Hy. exact Hlt.
      * specialize (Hpost _ Hy). lia.
    + destruct (IH best) as (pre & post & E & Hpre & Hpost).
      destruct pre as [|b pre].
      * simpl in E. injection E as E1 E2.
        exists [], (y :: r). rewrite <- E1. simpl. repeat split.
        -- intros x [].
        -- intros x [<-|Hx]; [exact Hge|]. rewrite E1. apply Hpost.
           rewrite <- E2. exact Hx.
      * simpl in E. injection E as E1 E2. subst b.
        exists (best :: y :: pre), post. split; [simpl; now rewrite <- E2|].
        split; [|exact Hpost].
        intros x [<-|[<-|Hx]].
        -- apply Hpre. now left.
        -- assert (k best < k (fold_left step r best)) by (apply Hpre; now left).
           lia.
        -- apply Hpre. now right.
Qed.

Lemma max_key_spec (it : list A) :
  it <> [] ->
  exists m pre post,
    max_key k it = OK m
    /\ it = (pre ++ m :: post)%list
    /\ (forall x, In x pre -> k x < k m)
    /\ (forall x, In x post -> k x <= k m).
Proof.
  destruct it as [|x r]; [congruence|]. intros _.
  destruct (max_key_fold r x) as (pre & post & E & Hpre & Hpost).
  exists (fold_left step r x), pre, post. repeat split; assumption.
Qed.

End MaxKey.

Lemma set_iter_nonempty (so : SetOrder) (h : list string) :
  h <> [] -> set_iter so h <> [].
Proof.
  destruct h as [|x r]; [congruence|]. intros _ E.
  assert (Hin : In x (set_iter so (x :: r)))
    by (apply (set_iter_In so (x :: r) x); now left).
  rewrite E in Hin. exact Hin.
Qed.

(** On a non-empty history [most_common] returns a member with the highest
    count: the first such member in the iteration order of the set. *)
Lemma most_common_spec (so : SetOrder) (h : list string) :
  h <> [] ->
  exists m pre post,
    HandTracker.most_common so h = OK m
    /\ set_iter so h = (pre ++ m :: post)%list
    /\ In m h
    /\ (forall x, In x h -> count h x <= count h m)
    /\ (forall x, In x pre -> count h x < count h m).
Proof.
  intros Hne. unfold HandTracker.most_common.
  destruct (max_key_spec (count h) (set_iter so h)) as
    (m & pre & post & E & D & Hpre & Hpost); [now apply set_iter_nonempty|].
  exists m, pre, post. split; [exact E|]. split; [exact D|].
  assert (Hm : In m (set_iter so h))
    by (rewrite D; apply in_or_app; right; now left).
  split; [now apply (set_iter_In so h m)|]. split; [|exact Hpre].
  intros x Hx. apply (set_iter_In so h x) in Hx. rewrite D in Hx.
  apply in_app_or in Hx. destruct Hx as [Hx|[<-|Hx]].
  - specialize (Hpre _ Hx). lia.
  - lia.
  - now apply Hpost.
Qed.

(** A label that occurs more often than every other one is the most
    common one, whatever the set order. *)
Lemma most_common_majority (so : SetOrder) (h : list string) (g : string) :
  In g h ->
  (forall x, In x h -> x <> g -> count h x < count h g) ->
  HandTracker.most_common so h = OK g.
Proof.
  intros Hg Hmaj.
  destruct (most_common_spec so h) as (m & pre & post & E & _ & Hm & Hmax & _).
  { intros ->. exact Hg. }
  rewrite E. f_equal.
  destruct (string_dec m g) as [->|Hne]; [reflexivity|].
  specialize (Hmaj m Hm Hne). specialize (Hmax g Hg). lia.
Qed.

(* ================================================================== *)
(** ** Finger states and the static classification *)
(* ================================================================== *)

(** Splits a list known to hold at least 21 members into its first 21
    members and the rest. *)
Ltac split_frame lm H :=
  do 21 (destruct lm as [|? lm]; [simpl in H; lia|]).

(** With 21 landmarks or more every finger test returns. *)
Lemma fingers_of_frame (lm : list point) :
  (21 <= List.length lm)%nat ->
  exists fs,
    finger_state lm = OK fs
    /\ HandTracker.is_finger_up lm "thumb" = OK (thumb fs)
    /\ HandTracker.is_finger_up lm "index" = OK (index fs)
    /\ HandTracker.is_finger_up lm "middle" = OK (middle fs)
    /\ HandTracker.is_finger_up lm "ring" = OK (ring fs)
    /\ HandTracker.is_finger_up lm "pinky" = OK (pinky fs).
Proof.
  intros H. split_frame lm H.
  eexists. split; [cbn; reflexivity|]. repeat split.
Qed.

Lemma up_count_range (fs : FingerState) : 0 <= up_count fs <= 5.
Proof. destruct fs as [[] [] [] [] []]; cbv; split; discriminate. Qed.

Lemma count_fingers_of_frame (lm : list point) (fs : FingerState) :
  finger_state lm = OK fs ->
  HandTracker.count_fingers lm = OK (up_count fs).
Proof.
  unfold finger_state, HandTracker.count_fingers. cbn [HandTracker.count_loop].
  destruct (HandTracker.is_finger_up lm "thumb") as [t|]; [|discriminate].
  destruct (HandTracker.is_finger_up lm "index") as [i|]; [|discriminate].
  destruct (HandTracker.is_finger_up lm "middle") as [m|]; [|discriminate].
  destruct (HandTracker.is_finger_up lm "ring") as [r|]; [|discriminate].
  destruct (HandTracker.is_finger_up lm "pinky") as [p|]; [|discriminate].
  cbn [bind]. intros E. injection E as <-.
  destruct t, i, m, r, p; reflexivity.
Qed.

(** The classification of the code follows the precedence table. *)
Lemma raw_gesture_of_frame (lm : list point) (fs : FingerState) :
  finger_state lm = OK fs ->
  HandTracker.raw_gesture lm = OK (static_label fs).
Proof.
  intros Hfs. unfold HandTracker.raw_gesture.
  rewrite (count_fingers_of_frame lm fs Hfs). cbn [bind].
  revert Hfs. unfold finger_state.
  destruct (HandTracker.is_finger_up lm "thumb") as [t|]; [|discriminate].
  destruct (HandTracker.is_finger_up lm "index") as [i|]; [|discriminate].
  destruct (HandTracker.is_finger_up lm "middle") as [m|]; [|discriminate].
  destruct (HandTracker.is_finger_up lm "ring") as [r|]; [|discriminate].
  destruct (HandTracker.is_finger_up lm "pinky") as [p|]; [|discriminate].
  cbn [bind]. intros E. injection E as <-.
  destruct t, i, m, r, p; reflexivity.
Qed.

(** On a tracker with an empty history the call returns the label of the
    frame itself. *)
Lemma recognize_gesture_fresh (so : SetOrder) (lm : list point) (g : string) :
  HandTracker.raw_gesture lm = OK g ->
  HandTracker.recognize_gesture so HandTracker.init lm
  = (OK g, {| HandTracker.gesture_history := [g];
              HandTracker.gesture_buffer_size := 5 |}).
Proof.
  intros Hg. unfold HandTracker.recognize_gesture. rewrite Hg. cbn.
  f_equal. apply most_common_majority; [now left|].
  intros x [<-|[]] Hx. congruence.
Qed.

(** C2: for every 21-landmark frame the label that [recognize_gesture]
    computes from the frame is the one the precedence table gives for the
    frame's finger state, first match winning: count 0 fist; count 1 with
    index up point, with thumb up thumbs_up, otherwise one; count 2 with
    index and middle up peace, otherwise two; count 3 three; count 4 four;
    count 5 open_hand; anything else unknown.  On a tracker with an empty
    history this label is also the value returned. *)
Theorem static_classification_precedence (lm : list point) :
  List.length lm = 21%nat ->
  exists fs,
    finger_state lm = OK fs
    /\ HandTracker.count_fingers lm = OK (up_count fs)
    /\ HandTracker.raw_gesture lm = OK (static_label fs)
    /\ forall so,
         fst (HandTracker.recognize_gesture so HandTracker.init lm)
         = OK (static_label fs).
Proof.
  intros H. destruct (fingers_of_frame lm) as (fs & Hfs & _); [lia|].
  exists fs. split; [exact Hfs|]. split; [now apply count_fingers_of_frame|].
  split; [now apply raw_gesture_of_frame|].
  intros so. rewrite (recognize_gesture_fresh so lm (static_label fs)).
  - reflexivity.
  - now apply raw_gesture_of_frame.
Qed.

Lemma static_classification_precedence_witness :
  exists fs,
    finger_state point_frame = OK fs
    /\ HandTracker.count_fingers point_frame = OK (up_count fs)
    /\ HandTracker.raw_gesture point_frame = OK (static_label fs)
    /\ forall so,
         fst (HandTracker.recognize_gesture so HandTracker.init point_frame)
         = OK (static_label fs).
Proof. apply (static_classification_precedence point_frame). reflexivity. Defined.

(** The table read row by row, as the specification lists it. *)
Lemma static_label_rows (fs : FingerState) :
  (up_count fs = 0 -> static_label fs = "fist")
  /\ (up_count fs = 1 -> index fs = true -> static_label fs = "point")
  /\ (up_count fs = 1 -> index fs = false -> thumb fs = true ->
      static_label fs = "thumbs_up")
  /\ (up_count fs = 1 -> index fs = false -> thumb fs = false ->
      static_label fs = "one")
  /\ (up_count fs = 2 -> index fs = true -> middle fs = true ->
      static_label fs = "peace")
  /\ (up_count fs = 2 -> index fs && middle fs = false ->
      static_label fs = "two")
  /\ (up_count fs = 3 -> static_label fs = "three")
  /\ (up_count fs = 4 -> static_label fs = "four")
  /\ (up_count fs = 5 -> static_label fs = "open_hand").
Proof.
  destruct fs as [[] [] [] [] []]; cbv; repeat split; intros; congruence.
Qed.

(** C10: for every 21-landmark frame [count_fingers] returns an integer
    between 0 and 5, the label computed from the frame is one of the nine
    named labels, and it is never [unknown]. *)
Theorem count_fingers_range (lm : list point) :
  List.length lm = 21%nat ->
  exists n g,
    HandTracker.count_fingers lm = OK n
    /\ 0 <= n <= 5
    /\ HandTracker.raw_gesture lm = OK g
    /\ In g named_labels
    /\ g <> "unknown".
Proof.
  intros H. destruct (fingers_of_frame lm) as (fs & Hfs & _); [lia|].
  exists (up_count fs), (static_label fs).
  split; [now apply count_fingers_of_frame|].
  split; [apply up_count_range|].
  split; [now apply raw_gesture_of_frame|].
  destruct fs as [[] [] [] [] []]; cbv; split; try discriminate; tauto.
Qed.

Lemma count_fingers_range_witness :
  exists n g,
    HandTracker.count_fingers open_frame = OK n
    /\ 0 <= n <= 5
    /\ HandTracker.raw_gesture open_frame = OK g
    /\ In g named_labels
    /\ g <> "unknown".
Proof. apply (count_fingers_range open_frame). reflexivity. Defined.

(* ================================================================== *)
(** ** Frames that do not hold 21 landmarks *)
(* ================================================================== *)

(** With fewer than 21 landmarks a finger test runs off the list. *)
Lemma raw_gesture_short (lm : list point) :
  (List.length lm < 21)%nat ->
  HandTracker.count_fingers lm = Raise IndexError
  /\ HandTracker.raw_gesture lm = Raise IndexError.
Proof.
  intros H.
  do 21 (destruct lm as [|? lm]; [split; reflexivity|]).
  simpl in H. lia.
Qed.

(** Landmarks past the 21st are never read. *)
Lemma raw_gesture_firstn (lm : list point) :
  (21 <= List.length lm)%nat ->
  HandTracker.raw_gesture (firstn 21 lm) = HandTracker.raw_gesture lm.
Proof.
  intros H. split_frame lm H. reflexivity.
Qed.

Lemma recognize_gesture_returns (so : SetOrder) (st : HandTracker.state)
    (lm : list point) :
  (21 <= List.length lm)%nat ->
  is_ok (fst (HandTracker.recognize_gesture so st lm)) = true.
Proof.
  intros H. destruct (fingers_of_frame lm H) as (fs & Hfs & _).
  unfold HandTracker.recognize_gesture.
  rewrite (raw_gesture_of_frame lm fs Hfs).
  match goal with
  | |- context [if ?c then pop0 ?a else ?a] =>
      destruct (if c then pop0 a else a) as [|x r] eqn:E
  end; [reflexivity|].
  destruct (most_common_spec so (x :: r)) as (m & _ & _ & Em & _);
    [discriminate|].
  cbn [fst]. rewrite Em. reflexivity.
Qed.

(** C3 (refuted as stated): a frame of 22 landmarks is classified like any
    other, and a frame of 2 landmarks fails with [IndexError]; neither fails
    with [InvalidFrameError]. *)
Lemma invalid_frame_error_not_raised :
  List.length long_frame <> 21%nat
  /\ HandTracker.count_fingers long_frame = OK 0
  /\ fst (HandTracker.recognize_gesture first_seen_order HandTracker.init
            long_frame) = OK "fist"
  /\ List.length minimal_landmarks <> 21%nat
  /\ fst (HandTracker.recognize_gesture first_seen_order HandTracker.init
            minimal_landmarks) = Raise IndexError.
Proof. repeat split; discriminate. Qed.

(** C3 (amended): the code does not check the landmark count.  A frame with
    fewer than 21 landmarks makes [count_fingers] and [recognize_gesture]
    fail with [IndexError], and the tracker is left as it was; a frame with
    more than 21 landmarks is not rejected: it is processed as the frame of
    its first 21 landmarks. *)
Theorem frame_length_not_checked (so : SetOrder) (st : HandTracker.state)
    (lm : list point) :
  ((List.length lm < 21)%nat ->
     HandTracker.count_fingers lm = Raise IndexError
     /\ HandTracker.recognize_gesture so st lm = (Raise IndexError, st))
  /\ ((21 < List.length lm)%nat ->
     HandTracker.recognize_gesture so st lm
     = HandTracker.recognize_gesture so st (firstn 21 lm)
     /\ is_ok (fst (HandTracker.recognize_gesture so st lm)) = true).
Proof.
  split; intros H.
  - destruct (raw_gesture_short lm H) as [Hc Hb].
    split; [exact Hc|]. unfold HandTracker.recognize_gesture.
    rewrite Hb. reflexivity.
  - split.
    + unfold HandTracker.recognize_gesture.
      rewrite raw_gesture_firstn by lia. reflexivity.
    + apply recognize_gesture_returns. lia.
Qed.

Lemma frame_length_not_checked_witness :
  (HandTracker.count_fingers minimal_landmarks = Raise IndexError
   /\ HandTracker.recognize_gesture first_seen_order HandTracker.init
        minimal_landmarks = (Raise IndexError, HandTracker.init))
  /\ (HandTracker.recognize_gesture first_seen_order HandTracker.init long_frame
      = HandTracker.recognize_gesture first_seen_order HandTracker.init
          (firstn 21 long_frame)
      /\ is_ok (fst (HandTracker.recognize_gesture first_seen_order
                       HandTracker.init long_frame)) = true).
Proof.
  split.
  - apply (frame_length_not_checked first_seen_order HandTracker.init
             minimal_landmarks). simpl. lia.
  - apply (frame_length_not_checked first_seen_order HandTracker.init
             long_frame). simpl. lia.
Defined.

(* ================================================================== *)
(** ** The gesture history as a sliding window *)
(* ================================================================== *)

Lemma last_n_short {A : Type} (n : nat) (l : list A) :
  (List.length l <= n)%nat -> last_n n l = l.
Proof.
  intros H. unfold last_n. replace (List.length l - n)%nat with 0%nat by lia.
  reflexivity.
Qed.

Lemma last_n_length {A : Type} (n : nat) (l : list A) :
  List.length (last_n n l) = Nat.min n (List.length l).
Proof. unfold last_n. rewrite length_skipn. lia. Qed.

(** Cutting early and cutting late leave the same window. *)
Lemma last_n_app {A : Type} (n : nat) (a b : list A) :
  last_n n (last_n n a ++ b) = last_n n (a ++ b).
Proof.
  destruct (Nat.le_gt_cases (List.length a) n) as [Hle|Hgt].
  - now rewrite (last_n_short n a Hle).
  - unfold last_n. rewrite !length_app, length_skipn.
    replace (List.length a - (List.length a - n) + List.length b - n)%nat
      with (List.length b) by lia.
    replace (List.length a + List.length b - n)%nat
      with (List.length b + (List.length a - n))%nat by lia.
    rewrite <- skipn_skipn. f_equal.
    rewrite skipn_app.
    replace (List.length a - n - List.length a)%nat with 0%nat by lia.
    reflexivity.
Qed.

(** One call on a tracker with window size 5: the label of the frame enters
    the window, the window keeps its 5 newest members, and the value
    returned is the most common member of the new window. *)
Lemma recognize_gesture_step (so : SetOrder) (st : HandTracker.state)
    (lm : list point) (g : string) :
  HandTracker.raw_gesture lm = OK g ->
  HandTracker.gesture_buffer_size st = 5 ->
  (List.length (HandTracker.gesture_history st) <= 5)%nat ->
  HandTracker.recognize_gesture so st lm
  = (HandTracker.most_common so
       (last_n 5 (HandTracker.gesture_history st ++ [g])),
     {| HandTracker.gesture_history :=
          last_n 5 (HandTracker.gesture_history st ++ [g]);
        HandTracker.gesture_buffer_size := 5 |}).
Proof.
  intros Hg Hsize Hlen. unfold HandTracker.recognize_gesture.
  rewrite Hg, Hsize. set (h := HandTracker.gesture_history st) in *.
  assert (E : (if 5 <? len (h ++ [g]) then pop0 (h ++ [g]) else (h ++ [g])%list)
              = last_n 5 (h ++ [g])).
  { unfold len, last_n. rewrite length_app. cbn [List.length].
    destruct (Z.ltb_spec 5 (Z.of_nat (List.length h + 1))) as [Hc|Hc].
    - replace (List.length h + 1 - 5)%nat with 1%nat by lia.
      destruct h; reflexivity.
    - replace (List.length h + 1 - 5)%nat with 0%nat by lia. reflexivity. }
  rewrite E.
  destruct (last_n 5 (h ++ [g])) as [|x r] eqn:El; [|reflexivity].
  apply (f_equal (@List.length string)) in El.
  rewrite last_n_length, length_app in El. cbn [List.length] in El. lia.
Qed.

(** After any number of frames fed to a fresh tracker the history is the
    window of the 5 newest labels. *)
Lemma run_history (so : SetOrder) (frames : list (list point))
    (labels : list string) :
  Forall2 (fun f g => HandTracker.raw_gesture f = OK g) frames labels ->
  forall st,
    HandTracker.gesture_buffer_size st = 5 ->
    (List.length (HandTracker.gesture_history st) <= 5)%nat ->
    HandTracker.gesture_history (snd (HandTracker.run so st frames))
    = last_n 5 (HandTracker.gesture_history st ++ labels).
Proof.
  induction 1 as [|f g frames labels Hg _ IH]; intros st Hsize Hlen.
  - simpl. rewrite app_nil_r. symmetry. now apply last_n_short.
  - simpl. rewrite (recognize_gesture_step so st f g Hg Hsize Hlen).
    specialize (IH {| HandTracker.gesture_history :=
                        last_n 5 (HandTracker.gesture_history st ++ [g]);
                      HandTracker.gesture_buffer_size := 5 |}).
    destruct (HandTracker.run so _ frames) as [rs st2]. simpl in *.
    rewrite IH; [|reflexivity|rewrite last_n_length; lia].
    rewrite last_n_app, <- app_assoc. reflexivity.
Qed.

(** C6 (refuted as stated): after the frames fist, fist, point, fist, fist
    the window holds four [fist] labels, not three. *)
Lemma fist_count_is_not_three :
  HandTracker.gesture_history
    (snd (HandTracker.run first_seen_order HandTracker.init
            [fist_frame; fist_frame; point_frame; fist_frame; fist_frame]))
  = ["fist"; "fist"; "point"; "fist"; "fist"]
  /\ count ["fist"; "fist"; "point"; "fist"; "fist"] "fist" = 4
  /\ count ["fist"; "fist"; "point"; "fist"; "fist"] "fist" <> 3.
Proof. repeat split. discriminate. Qed.

(** C6 (amended): the history of a tracker holds at most 5 labels, the 5
    newest of those computed from the frames fed to it (one push per frame,
    the oldest dropped past 5); frames whose labels are fist, fist, point,
    fist, fist, fed to a fresh tracker, all return [fist], the last with 4
    occurrences of 5 in the window. *)
Theorem stabilizer_window (so : SetOrder) :
  (forall frames labels,
      Forall2 (fun f g => HandTracker.raw_gesture f = OK g) frames labels ->
      HandTracker.gesture_history
        (snd (HandTracker.run so HandTracker.init frames))
      = last_n 5 labels
      /\ (List.length (HandTracker.gesture_history
                        (snd (HandTracker.run so HandTracker.init frames)))
          <= 5)%nat)
  /\ (forall f1 f2 f3 f4 f5,
      HandTracker.raw_gesture f1 = OK "fist" ->
      HandTracker.raw_gesture f2 = OK "fist" ->
      HandTracker.raw_gesture f3 = OK "point" ->
      HandTracker.raw_gesture f4 = OK "fist" ->
      HandTracker.raw_gesture f5 = OK "fist" ->
      fst (HandTracker.run so HandTracker.init [f1; f2; f3; f4; f5])
      = [OK "fist"; OK "fist"; OK "fist"; OK "fist"; OK "fist"]
      /\ count (HandTracker.gesture_history
                  (snd (HandTracker.run so HandTracker.init
                          [f1; f2; f3; f4; f5]))) "fist" = 4).
Proof.
  split.
  - intros frames labels H.
    rewrite (run_history so frames labels H HandTracker.init);
      [|reflexivity|simpl; lia].
    split; [reflexivity|]. simpl. rewrite last_n_length. lia.
  - intros f1 f2 f3 f4 f5 H1 H2 H3 H4 H5.
    assert (M : forall h, In "fist" h ->
                (forall x, In x h -> x <> "fist" -> count h x < count h "fist") ->
                HandTracker.most_common so h = OK "fist")
      by (intros h; apply most_common_majority).
    cbn [HandTracker.run].
    rewrite (recognize_gesture_step so _ f1 _ H1) by (simpl; (reflexivity || lia)).
    rewrite (recognize_gesture_step so _ f2 _ H2) by (simpl; (reflexivity || lia)).
    rewrite (recognize_gesture_step so _ f3 _ H3) by (simpl; (reflexivity || lia)).
    rewrite (recognize_gesture_step so _ f4 _ H4) by (simpl; (reflexivity || lia)).
    rewrite (recognize_gesture_step so _ f5 _ H5) by (simpl; (reflexivity || lia)).
    cbn [fst snd HandTracker.gesture_history HandTracker.init last_n
         List.length app Nat.sub skipn].
    split; [|reflexivity].
    repeat (rewrite M;
            [|simpl; tauto
             |let x := fresh in let Hx := fresh in let Hn := fresh in
              intros x Hx Hn; simpl in Hx;
              repeat (destruct Hx as [<-|Hx]; [try congruence; reflexivity|]);
              contradiction]).
    reflexivity.
Qed.

Lemma stabilizer_window_witness :
  (HandTracker.gesture_history
     (snd (HandTracker.run first_seen_order HandTracker.init
             [fist_frame; point_frame]))
   = last_n 5 ["fist"; "point"]
   /\ (List.length (HandTracker.gesture_history
                     (snd (HandTracker.run first_seen_order HandTracker.init
                             [fist_frame; point_frame])))
       <= 5)%nat)
  /\ (fst (HandTracker.run first_seen_order HandTracker.init
             [fist_frame; fist_frame; point_frame; fist_frame; fist_frame])
      = [OK "fist"; OK "fist"; OK "fist"; OK "fist"; OK "fist"]
      /\ count (HandTracker.gesture_history
                  (snd (HandTracker.run first_seen_order HandTracker.init
                          [fist_frame; fist_frame; point_frame; fist_frame;
                           fist_frame]))) "fist" = 4).
Proof.
  split.
  - apply (proj1 (stabilizer_window first_seen_order)).
    repeat constructor.
  - apply (proj2 (stabilizer_window first_seen_order)); reflexivity.
Defined.

(* ================================================================== *)
(** ** Ties in the window *)
(* ================================================================== *)

(** C7 (refuted as stated): with the members of the set enumerated in the
    reverse of first-seen order, the frames point, fist fed to a fresh
    tracker return [fist] on the second call, where the window is
    [point, fist] and the label seen first among the tied ones is [point]. *)
Lemma tie_not_first_seen :
  fst (HandTracker.run last_seen_order HandTracker.init
         [point_frame; fist_frame])
  = [OK "point"; OK "fist"]
  /\ HandTracker.gesture_history
       (snd (HandTracker.run last_seen_order HandTracker.init
               [point_frame; fist_frame]))
     = ["point"; "fist"]
  /\ count ["point"; "fist"] "point" = count ["point"; "fist"] "fist"
  /\ stabilized_first_seen ["point"; "fist"] = OK "point"
  /\ HandTracker.most_common last_seen_order ["point"; "fist"]
     <> stabilized_first_seen ["point"; "fist"].
Proof. repeat split. discriminate. Qed.

(** C7 (amended): for every non-empty window the stabilizer returns a label
    of the window with the highest occurrence count; when several labels
    tie for it, it returns the tied label that comes first in the iteration
    order of the set built from the window, an order the code does not fix:
    every label ahead of the returned one in that order has a strictly
    smaller count.  Under first-seen iteration order this is the label the
    specification asks for.  For the window [point, fist] the result is
    [point] under first-seen order and [fist] under the reverse order. *)
Theorem stabilizer_tie_break (so : SetOrder) (window : list string) :
  window <> [] ->
  (exists m pre post,
      HandTracker.most_common so window = OK m
      /\ set_iter so window = (pre ++ m :: post)%list
      /\ In m window
      /\ (forall x, In x window -> count window x <= count window m)
      /\ (forall x, In x pre -> count window x < count window m))
  /\ HandTracker.most_common first_seen_order window
     = stabilized_first_seen window
  /\ HandTracker.most_common first_seen_order ["point"; "fist"] = OK "point"
  /\ HandTracker.most_common last_seen_order ["point"; "fist"] = OK "fist".
Proof.
  intros H. split; [now apply most_common_spec|].
  repeat split.
Qed.

Lemma stabilizer_tie_break_witness :
  (exists m pre post,
      HandTracker.most_common last_seen_order ["point"; "fist"] = OK m
      /\ set_iter last_seen_order ["point"; "fist"] = (pre ++ m :: post)%list
      /\ In m ["point"; "fist"]
      /\ (forall x, In x ["point"; "fist"] ->
                    count ["point"; "fist"] x <= count ["point"; "fist"] m)
      /\ (forall x, In x pre ->
                    count ["point"; "fist"] x < count ["point"; "fist"] m))
  /\ HandTracker.most_common first_seen_order ["point"; "fist"]
     = stabilized_first_seen ["point"; "fist"]
  /\ HandTracker.most_common first_seen_order ["point"; "fist"] = OK "point"
  /\ HandTracker.most_common last_seen_order ["point"; "fist"] = OK "fist".
Proof.
  apply (stabilizer_tie_break last_seen_order ["point"; "fist"]). discriminate.
Defined.

(* ================================================================== *)
(** ** Calling [recognize_gesture] twice on one frame *)
(* ================================================================== *)

(** A history that holds one label only has that label as its most common
    member. *)
Lemma most_common_constant (so : SetOrder) (h : list string) (g : string) :
  h <> [] -> (forall x, In x h -> x = g) ->
  HandTracker.most_common so h = OK g.
Proof.
  intros Hne Hall. apply most_common_majority.
  - destruct h as [|x r]; [congruence|].
    rewrite <- (Hall x) by now left. now left.
  - intros x Hx Hn. specialize (Hall x Hx). congruence.
Qed.

(** One call on a history that holds only the frame's label returns that
    label and leaves such a history behind. *)
Lemma recognize_gesture_constant (so : SetOrder) (st : HandTracker.state)
    (lm : list point) (g : string) :
  HandTracker.raw_gesture lm = OK g ->
  (forall x, In x (HandTracker.gesture_history st) -> x = g) ->
  fst (HandTracker.recognize_gesture so st lm) = OK g
  /\ (forall x,
        In x (HandTracker.gesture_history
                (snd (HandTracker.recognize_gesture so st lm))) -> x = g).
Proof.
  intros Hg Hall. unfold HandTracker.recognize_gesture. rewrite Hg.
  set (appended := (HandTracker.gesture_history st ++ [g])%list).
  assert (Happ : forall x, In x appended -> x = g).
  { intros x Hx. apply in_app_or in Hx. destruct Hx as [Hx|[<-|[]]];
      [now apply Hall|reflexivity]. }
  set (history := if HandTracker.gesture_buffer_size st <? len appended
                  then pop0 appended else appended).
  assert (Hh : forall x, In x history -> x = g).
  { intros x Hx. apply Happ. unfold history in Hx.
    destruct (HandTracker.gesture_buffer_size st <? len appended);
      [|exact Hx].
    destruct appended; [exact Hx|now right]. }
  destruct history as [|y r].
  - split; [reflexivity|]. intros x [].
  - split; [|exact Hh]. cbn [fst].
    apply most_common_constant; [discriminate|exact Hh].
Qed.

(** C4 (refuted as stated): on a tracker that has seen three fist frames and
    one open-hand frame, two successive calls on the same open-hand frame
    return [fist] and then [open_hand]. *)
Lemma repeated_call_changes_label :
  fst (HandTracker.run first_seen_order HandTracker.init
         [fist_frame; fist_frame; fist_frame; open_frame;
          open_frame; open_frame])
  = [OK "fist"; OK "fist"; OK "fist"; OK "fist"; OK "fist"; OK "open_hand"]
  /\ ~ (forall so st lm,
          List.length lm = 21%nat ->
          fst (HandTracker.recognize_gesture so st lm)
          = fst (HandTracker.recognize_gesture so
                   (snd (HandTracker.recognize_gesture so st lm)) lm)).
Proof.
  split; [reflexivity|]. intros H.
  specialize (H first_seen_order
                {| HandTracker.gesture_history :=
                     ["fist"; "fist"; "fist"; "open_hand"];
                   HandTracker.gesture_buffer_size := 5 |}
                open_frame eq_refl).
  discriminate H.
Qed.

(** C4 (amended): for every 21-landmark frame the label computed from the
    frame depends on its finger state alone (any 21-landmark frame with the
    same finger state gets the same label), and two successive calls of
    [recognize_gesture] on the same landmark list return equal results, both
    that label, when the gesture history before the first call is empty or
    holds only that label. *)
Theorem repeated_call_same_label (so : SetOrder) (st : HandTracker.state)
    (lm : list point) :
  List.length lm = 21%nat ->
  exists g,
    HandTracker.raw_gesture lm = OK g
    /\ (forall lm',
          List.length lm' = 21%nat ->
          finger_state lm' = finger_state lm ->
          HandTracker.raw_gesture lm' = OK g)
    /\ ((forall x, In x (HandTracker.gesture_history st) -> x = g) ->
        fst (HandTracker.recognize_gesture so st lm) = OK g
        /\ fst (HandTracker.recognize_gesture so
                  (snd (HandTracker.recognize_gesture so st lm)) lm) = OK g).
Proof.
  intros H. destruct (fingers_of_frame lm) as (fs & Hfs & _); [lia|].
  pose proof (raw_gesture_of_frame lm fs Hfs) as Hg.
  exists (static_label fs). split; [exact Hg|]. split.
  - intros lm' _ E. apply raw_gesture_of_frame. now rewrite E.
  - intros Hall.
    destruct (recognize_gesture_constant so st lm _ Hg Hall) as [R1 Hall1].
    split; [exact R1|].
    apply (recognize_gesture_constant so _ lm _ Hg Hall1).
Qed.

Lemma repeated_call_same_label_witness :
  exists g,
    HandTracker.raw_gesture open_frame = OK g
    /\ (forall lm',
          List.length lm' = 21%nat ->
          finger_state lm' = finger_state open_frame ->
          HandTracker.raw_gesture lm' = OK g)
    /\ ((forall x, In x (HandTracker.gesture_history HandTracker.init) -> x = g) ->
        fst (HandTracker.recognize_gesture first_seen_order HandTracker.init
               open_frame) = OK g
        /\ fst (HandTracker.recognize_gesture first_seen_order
                  (snd (HandTracker.recognize_gesture first_seen_order
                          HandTracker.init open_frame)) open_frame) = OK g).
Proof.
  apply (repeated_call_same_label first_seen_order HandTracker.init open_frame).
  reflexivity.
Defined.

(* ================================================================== *)
(** ** The hold state machine of [GestureController] *)
(* ================================================================== *)

Lemma differs_same (g : string) : GC.differs g (Some g) = false.
Proof. simpl. now rewrite String.eqb_refl. Qed.

Lemma differs_other (g g' : string) : g' <> g -> GC.differs g' (Some g) = true.
Proof.
  intros H. simpl. apply negb_true_iff. now apply String.eqb_neq.
Qed.

Lemma differs_false (g : string) (last : option string) :
  GC.differs g last = false -> last = Some g.
Proof.
  destruct last as [g'|]; simpl; [|discriminate].
  rewrite negb_false_iff, String.eqb_eq. now intros ->.
Qed.

(** A disarmed controller answers [None] to the same label and stays as it
    is. *)
Lemma process_gesture_disarmed (st : GC.state) (t : Q) (g : string)
    (lm : list point) :
  disarmed g st -> GC.process_gesture st t g lm = (None, st).
Proof.
  intros [Hl Hs]. unfold GC.process_gesture, GC.held_long_enough.
  now rewrite Hl, differs_same, Hs.
Qed.

(** A call that returns a result leaves the controller disarmed, and the
    result is the action of the table. *)
Lemma process_gesture_fired (st st' : GC.state) (t : Q) (g r : string)
    (lm : list point) :
  GC.process_gesture st t g lm = (Some r, st') ->
  disarmed g st'
  /\ exists action, dict_get GC.gesture_actions g = Some action
                    /\ r = action lm.
Proof.
  unfold GC.process_gesture.
  destruct (GC.differs g (GC.last_gesture st)) eqn:Hd; [discriminate|].
  destruct (GC.held_long_enough st t); [|discriminate].
  destruct (dict_get GC.gesture_actions g) as [a|]; [|discriminate].
  intros E. injection E as <- <-. split.
  - split; [|reflexivity]. simpl. now apply differs_false.
  - now exists a.
Qed.

Lemma run_disarmed (g : string) (calls : list GC.call) :
  Forall (fun c => GC.gesture c = g) calls ->
  forall st, disarmed g st ->
    GC.run st calls = (map (fun _ => None) calls, st).
Proof.
  induction 1 as [|c calls Hc _ IH]; intros st Hst; [reflexivity|].
  simpl. rewrite Hc, (process_gesture_disarmed st _ g _ Hst).
  now rewrite (IH st Hst).
Qed.

Lemma fired_none {A : Type} (l : list A) :
  GC.fired (map (fun _ => None) l) = 0%nat.
Proof. induction l; simpl; auto. Qed.

(** At most one result during a hold, from any controller. *)
Lemma hold_fires_at_most_once (g : string) (calls : list GC.call) :
  Forall (fun c => GC.gesture c = g) calls ->
  forall st, (GC.fired (fst (GC.run st calls)) <= 1)%nat.
Proof.
  induction 1 as [|c calls Hc Hcalls IH]; intros st; [simpl; lia|].
  simpl. rewrite Hc.
  destruct (GC.process_gesture st (GC.at_time c) g (GC.landmarks c))
    as [[r|] st1] eqn:E.
  - apply process_gesture_fired in E. destruct E as [Hd _].
    rewrite (run_disarmed g calls Hcalls st1 Hd). simpl.
    rewrite fired_none. lia.
  - specialize (IH st1). destruct (GC.run st1 calls) as [rs st2]. exact IH.
Qed.

(** While [g] is held on an armed controller whose start reading is not
    zero, the first call that comes at least the minimum duration after the
    start fires the action of [g], and nothing else fires. *)
Lemma hold_fires_once (g : string) (lm : list point)
    (action : list point -> string) (start : Q) (times : list Q) :
  dict_get GC.gesture_actions g = Some action ->
  ~ (start == 0)%Q ->
  forall st,
    armed g start st ->
    (exists t, In t times /\ (GC.min_gesture_duration st <= t - start)%Q) ->
    GC.fired (fst (GC.run st (GC.hold g lm times))) = 1%nat
    /\ forall r, In (Some r) (fst (GC.run st (GC.hold g lm times))) ->
                 r = action lm.
Proof.
  intros Ha Hnz st [Hl Hs]. induction times as [|t times IH]; intros (t' & Hin & Hle).
  - destruct Hin.
  - simpl. unfold GC.process_gesture, GC.held_long_enough.
    rewrite Hl, differs_same, Hs.
    destruct (Qeq_bool start 0) eqn:Ez;
      [apply Qeq_bool_iff in Ez; contradiction|]. cbn [negb andb].
    destruct (Qle_bool (GC.min_gesture_duration st) (t - start)) eqn:Eh.
    + rewrite Ha.
      rewrite (run_disarmed g (GC.hold g lm times)).
      * simpl. rewrite fired_none. split; [reflexivity|].
        intros r [E|E]; [now injection E as <-|].
        apply in_map_iff in E. destruct E as (? & E & _). discriminate.
      * unfold GC.hold. apply Forall_forall. intros c Hc.
        apply in_map_iff in Hc. destruct Hc as (? & <- & _). reflexivity.
      * split; reflexivity.
    + assert (Hrest : exists t, In t times
                      /\ (GC.min_gesture_duration st <= t - start)%Q).
      { destruct Hin as [->|Hin]; [|now exists t'].
        apply Qle_bool_iff in Hle. congruence. }
      specialize (IH Hrest).
      destruct (GC.run st (GC.hold g lm times)) as [rs st2]. simpl in *.
      destruct IH as [IH1 IH2]. split; [exact IH1|].
      intros r [E|E]; [discriminate|now apply IH2].
Qed.

(** After a result for [g], a call with another label and a new hold of
    [g] that lasts the minimum duration fire the action of [g] again. *)
Lemma rearm_after_change (st : GC.state) (g g' : string)
    (action : list point -> string) (c1 : GC.call) (t2 t3 : Q)
    (lm : list point) :
  disarmed g st ->
  dict_get GC.gesture_actions g = Some action ->
  GC.gesture c1 = g' -> g' <> g ->
  ~ (t2 == 0)%Q ->
  (GC.min_gesture_duration st <= t3 - t2)%Q ->
  fst (GC.run st (c1 :: GC.hold g lm [t2; t3]))
  = [None; None; Some (action lm)].
Proof.
  intros [Hl _] Ha Hc1 Hne Hnz Hle. simpl.
  unfold GC.process_gesture at 1. rewrite Hc1, Hl, (differs_other g g' Hne).
  unfold GC.process_gesture at 1. cbn [GC.last_gesture].
  rewrite (differs_other g' g) by congruence.
  unfold GC.process_gesture, GC.held_long_enough.
  cbn [GC.last_gesture GC.gesture_start_time GC.min_gesture_duration].
  rewrite differs_same.
  destruct (Qeq_bool t2 0) eqn:Ez;
    [apply Qeq_bool_iff in Ez; contradiction|].
  apply Qle_bool_iff in Hle. rewrite Hle, Ha. reflexivity.
Qed.

(** C1: during a hold (the same label on consecutive calls of
    [process_gesture]) at most one result is returned; once a result has
    been returned, no call with the same label returns another; a call with
    a different label re-arms the controller, so that a new hold of the
    first label that lasts the minimum duration returns its action again;
    and on a fresh controller a hold of open_hand that starts at a non-zero
    clock reading and lasts at least 1.0 s returns exactly one result, the
    stop/pause action, however long the hold goes on. *)
Theorem fire_once_per_hold :
  (forall g calls st,
      Forall (fun c => GC.gesture c = g) calls ->
      (GC.fired (fst (GC.run st calls)) <= 1)%nat)
  /\ (forall st st' t g lm r calls,
      GC.process_gesture st t g lm = (Some r, st') ->
      Forall (fun c => GC.gesture c = g) calls ->
      fst (GC.run st' calls) = map (fun _ => None) calls)
  /\ (forall st st' t g lm r c1 t2 t3 lm',
      GC.process_gesture st t g lm = (Some r, st') ->
      GC.gesture c1 <> g ->
      ~ (t2 == 0)%Q ->
      (GC.min_gesture_duration st' <= t3 - t2)%Q ->
      exists action,
        dict_get GC.gesture_actions g = Some action
        /\ r = action lm
        /\ fst (GC.run st' (c1 :: GC.hold g lm' [t2; t3]))
           = [None; None; Some (action lm')])
  /\ (forall lm t0 times,
      ~ (t0 == 0)%Q ->
      (exists t, In t times /\ (1 <= t - t0)%Q) ->
      GC.fired (fst (GC.run GC.init (GC.hold "open_hand" lm (t0 :: times))))
      = 1%nat
      /\ forall r,
           In (Some r)
              (fst (GC.run GC.init (GC.hold "open_hand" lm (t0 :: times)))) ->
           r = "Open hand detected - Action: Stop/Pause").
Proof.
  split; [|split; [|split]].
  - intros g calls st H. now apply (hold_fires_at_most_once g).
  - intros st st' t g lm r calls E H.
    apply process_gesture_fired in E. destruct E as [Hd _].
    now rewrite (run_disarmed g calls H st' Hd).
  - intros st st' t g lm r c1 t2 t3 lm' E Hne Hnz Hle.
    apply process_gesture_fired in E. destruct E as (Hd & action & Ha & Hr).
    exists action. split; [exact Ha|]. split; [exact Hr|].
    now apply (rearm_after_change st' g (GC.gesture c1)).
  - intros lm t0 times Hnz Hex.
    pose (st1 := {| GC.last_gesture := Some "open_hand";
                    GC.gesture_start_time := Some t0;
                    GC.min_gesture_duration := 1 |}).
    destruct (hold_fires_once "open_hand" lm GC.on_open_hand t0 times
                eq_refl Hnz st1 (conj eq_refl eq_refl) Hex) as [H1 H2].
    change (GC.run GC.init (GC.hold "open_hand" lm (t0 :: times)))
      with (let (rs, st2) := GC.run st1 (GC.hold "open_hand" lm times) in
            (@None string :: rs, st2)).
    destruct (GC.run st1 (GC.hold "open_hand" lm times)) as [rs st2].
    simpl in *. split; [exact H1|].
    intros r [E|E]; [discriminate|]. now apply H2.
Qed.

(** A hold of open_hand with calls at 100.0, 100.5, 101.0 and 101.5 s, and
    after it one fist call and a second hold of open_hand. *)
Lemma fire_once_per_hold_witness :
  (GC.fired (fst (GC.run GC.init
                    (GC.hold "open_hand" open_frame hold_times)))
   <= 1)%nat
  /\ (GC.fired (fst (GC.run GC.init
                       (GC.hold "open_hand" open_frame hold_times))) = 1%nat
      /\ forall r,
           In (Some r)
              (fst (GC.run GC.init
                      (GC.hold "open_hand" open_frame
                         hold_times))) ->
           r = "Open hand detected - Action: Stop/Pause")
  /\ fst (GC.run (snd (GC.run GC.init
                         (GC.hold "open_hand" open_frame hold_until_fired)))
            (GC.hold "open_hand" open_frame hold_on))
     = [None; None; None]
  /\ exists action,
       dict_get GC.gesture_actions "open_hand" = Some action
       /\ "Open hand detected - Action: Stop/Pause" = action open_frame
       /\ fst (GC.run (snd (GC.run GC.init
                              (GC.hold "open_hand" open_frame hold_until_fired)))
                 ({| GC.at_time := 102; GC.gesture := "fist";
                     GC.landmarks := fist_frame |}
                  :: GC.hold "open_hand" open_frame second_hold))
          = [None; None; Some (action open_frame)].
Proof.
  destruct fire_once_per_hold as (A & B & C & D).
  split; [|split; [|split]].
  - apply (A "open_hand"). repeat constructor.
  - apply (D open_frame 100%Q (tl hold_times)).
    + intros H. discriminate H.
    + exists 101%Q. split; [simpl; tauto|]. intros H. discriminate H.
  - apply (B {| GC.last_gesture := Some "open_hand";
                GC.gesture_start_time := Some 100%Q;
                GC.min_gesture_duration := 1 |}
             _ 101%Q "open_hand" open_frame
             "Open hand detected - Action: Stop/Pause").
    + reflexivity.
    + repeat constructor.
  - apply (C {| GC.last_gesture := Some "open_hand";
                GC.gesture_start_time := Some 100%Q;
                GC.min_gesture_duration := 1 |}
             _ 101%Q "open_hand" open_frame).
    + reflexivity.
    + discriminate.
    + intros H. discriminate H.
    + intros H. discriminate H.
Defined.

(* ================================================================== *)
(** ** Swipe detection in [AdvancedGestureRecognizer] *)
(* ================================================================== *)

Section Swipe.

Context {F : FloatOps}.

Lemma getitem_last {A : Type} (l : list A) (c : A) :
  getitem (l ++ [c]) (-1) = OK c.
Proof.
  unfold getitem, len. rewrite length_app. cbn [List.length Z.ltb Z.compare].
  destruct (Z.ltb_spec (Z.of_nat (List.length l + 1) + -1) 0) as [H|H]; [lia|].
  replace (Z.to_nat (Z.of_nat (List.length l + 1) + -1)) with (List.length l)
    by lia.
  rewrite nth_error_app2, Nat.sub_diag by lia. reflexivity.
Qed.

(** Once the centre of the frame has entered the history, the velocity that
    [calculate_hand_velocity] computes for that frame is zero: the previous
    centre it reads, [history[-1]], is the centre just appended. *)
Lemma velocity_after_update (st : AGR.state) (lm : list point) (c : point) :
  AGR.get_hand_center lm = OK c ->
  AGR.calculate_hand_velocity (AGR.update_history st c) lm = OK (0, 0).
Proof.
  intros Hc. unfold AGR.calculate_hand_velocity.
  destruct (Z.ltb_spec (len (AGR.hand_positions_history
                               (AGR.update_history st c))) 2) as [Hlt|Hge];
    [reflexivity|].
  rewrite Hc. cbn [bind].
  assert (Hlast : getitem (AGR.hand_positions_history
                             (AGR.update_history st c)) (-1) = OK c).
  { revert Hge. unfold AGR.update_history. cbn [AGR.hand_positions_history].
    destruct (AGR.position_history_size st
              <? len (AGR.hand_positions_history st ++ [c]));
      [|intros _; apply getitem_last].
    destruct (AGR.hand_positions_history st) as [|p h].
    - unfold len. simpl. lia.
    - intros _. simpl. apply getitem_last. }
  rewrite Hlast. cbn [bind fst snd]. now rewrite !Z.sub_diag.
Qed.

(** What the detector loop returns holds nothing but what it started with
    and names of detectors that answered true. *)
Lemma detect_loop_names (st : AGR.state) (lm : list point)
    (patterns : list (string * (AGR.state -> list point -> res bool))) :
  forall acc ds,
    AGR.detect_loop st lm patterns acc = OK ds ->
    forall x, In x ds ->
      In x acc
      \/ exists d, In (x, d) patterns /\ d st lm = OK true.
Proof.
  induction patterns as [|[name d] rest IH]; intros acc ds E x Hx.
  - injection E as <-. now left.
  - simpl in E. destruct (d st lm) as [hit|] eqn:Ed; [|discriminate].
    cbn [bind] in E. destruct (IH _ _ E x Hx) as [Hacc|(d' & Hin & Hd')].
    + destruct hit; [|now left].
      apply in_app_or in Hacc. destruct Hacc as [Hacc|[<-|[]]]; [now left|].
      right. exists d. split; [now left|exact Ed].
    + right. exists d'. split; [now right|exact Hd'].
Qed.

(** No call of [recognize_advanced_gestures] reports a swipe. *)
Lemma swipe_never_detected (st st' : AGR.state) (lm : list point)
    (ds : list string) :
  AGR.recognize_advanced_gestures st lm = (OK ds, st') ->
  ~ In "swipe_right" ds /\ ~ In "swipe_left" ds.
Proof.
  unfold AGR.recognize_advanced_gestures.
  destruct (AGR.get_hand_center lm) as [c|] eqn:Hc; [|discriminate].
  intros E. apply (f_equal fst) in E. cbn [fst] in E.
  pose proof (velocity_after_update st lm c Hc) as Hv.
  split; intros Hin;
    destruct (detect_loop_names _ _ _ _ _ E _ Hin) as [[]|(d & Hd & Ed)];
    simpl in Hd;
    repeat (destruct Hd as [Hd|Hd]; [injection Hd as <-|]);
    try discriminate; try contradiction;
    unfold AGR.detect_swipe_right, AGR.detect_swipe_left in Ed;
    rewrite Hv in Ed; discriminate.
Qed.

End Swipe.

(** C5 (the code departs from the claim): two frames of a hand at rest
    leave the history [(0,0), (0,0)]; the next frame shows the hand 30
    pixels to the right.  After that call the history holds three samples,
    its two most recent centres differ by [(30, 0)], so the swipe-right
    condition of the specification holds.  [calculate_hand_velocity] gives
    [(30, 0)] when called before the centre is appended, as
    [draw_advanced_info] calls it, and [(0, 0)] when called after, as the
    detectors call it; the call runs every detector without an exception
    and does not report [swipe_right].  The same happens to [swipe_left]
    with the hand 30 pixels to the left. *)
Theorem swipe_right_missed (F : FloatOps) :
  snd (AGR.recognize_advanced_gestures
         (snd (AGR.recognize_advanced_gestures AGR.init rest_frame)) rest_frame)
  = resting
  /\ (exists ds,
       AGR.recognize_advanced_gestures resting moved_frame
       = (OK ds, {| AGR.hand_positions_history := [(0, 0); (0, 0); (30, 0)];
                    AGR.position_history_size := 30 |})
       /\ velocity_of_history [(0, 0); (0, 0); (30, 0)] = (30, 0)
       /\ swipe_right_expected [(0, 0); (0, 0); (30, 0)] = true
       /\ AGR.calculate_hand_velocity resting moved_frame = OK (30, 0)
       /\ AGR.calculate_hand_velocity
            {| AGR.hand_positions_history := [(0, 0); (0, 0); (30, 0)];
               AGR.position_history_size := 30 |} moved_frame = OK (0, 0)
       /\ ~ In "swipe_right" ds)
  /\ (exists ds,
       AGR.recognize_advanced_gestures resting moved_left_frame
       = (OK ds, {| AGR.hand_positions_history := [(0, 0); (0, 0); (-30, 0)];
                    AGR.position_history_size := 30 |})
       /\ velocity_of_history [(0, 0); (0, 0); (-30, 0)] = (-30, 0)
       /\ swipe_left_expected [(0, 0); (0, 0); (-30, 0)] = true
       /\ ~ In "swipe_left" ds).
Proof.
  split; [reflexivity|]. split.
  - destruct (AGR.recognize_advanced_gestures resting moved_frame)
      as [[ds|e] st'] eqn:E.
    + exists ds.
      pose proof (swipe_never_detected _ _ _ _ E) as [Hr _].
      revert E. unfold AGR.recognize_advanced_gestures.
      change (AGR.get_hand_center moved_frame) with (OK (30, 0) : res point).
      intros E. injection E as _ <-.
      repeat split. exact Hr.
    + exfalso. revert E. cbv -[flt fsqrt of_int fadd fsub fdiv fsquare].
      discriminate.
  - destruct (AGR.recognize_advanced_gestures resting moved_left_frame)
      as [[ds|e] st'] eqn:E.
    + exists ds.
      pose proof (swipe_never_detected _ _ _ _ E) as [_ Hl].
      revert E. unfold AGR.recognize_advanced_gestures.
      change (AGR.get_hand_center moved_left_frame)
        with (OK (-30, 0) : res point).
      intros E. injection E as _ <-.
      repeat split. exact Hl.
    + exfalso. revert E. cbv -[flt fsqrt of_int fadd fsub fdiv fsquare].
      discriminate.
Qed.

(* ================================================================== *)
(** * Further properties of the code *)
(* ================================================================== *)

(* ================================================================== *)
(** ** Landmark lookups and the finger tests *)
(* ================================================================== *)

Lemma getitem_nonneg {A : Type} (l : list A) (i : Z) :
  0 <= i ->
  getitem l i = match nth_error l (Z.to_nat i) with
                | Some a => OK a
                | None => Raise IndexError
                end.
Proof.
  intros H. unfold getitem.
  destruct (Z.ltb_spec i 0); [lia|].
  destruct (Z.ltb_spec i 0); [lia|reflexivity].
Qed.

Lemma getitem_is_ok {A : Type} (l : list A) (i : Z) :
  0 <= i -> is_ok (getitem l i) = (i <? len l).
Proof.
  intros H. rewrite getitem_nonneg by exact H.
  destruct (nth_error l (Z.to_nat i)) as [a|] eqn:E; simpl; symmetry.
  - apply Z.ltb_lt. unfold len.
    assert (Z.to_nat i < List.length l)%nat
      by (apply nth_error_Some; congruence). lia.
  - apply Z.ltb_ge. unfold len. apply nth_error_None in E. lia.
Qed.

Lemma getitem_raises {A : Type} (l : list A) (i : Z) (e : exn) :
  getitem l i = Raise e -> e = IndexError.
Proof.
  unfold getitem. destruct (_ <? 0); [congruence|].
  destruct (nth_error l _); congruence.
Qed.

(** Two lookups in a row, the greater index first, return exactly when the
    greater index is inside the list. *)
Lemma lookup_pair_is_ok {A B : Type} (l : list A) (a b : Z) (k : A -> A -> B) :
  0 <= b <= a ->
  is_ok (do p <- getitem l a; do q <- getitem l b; OK (k p q))
  = (a <? len l).
Proof.
  intros H. rewrite <- (getitem_is_ok l a) by lia.
  destruct (getitem l a) as [p|e] eqn:Ea; [|reflexivity]. cbn [bind is_ok].
  assert (Hb : is_ok (getitem l b) = true).
  { rewrite getitem_is_ok by lia. apply Z.ltb_lt.
    assert (Ha : is_ok (getitem l a) = true) by now rewrite Ea.
    rewrite getitem_is_ok in Ha by lia. apply Z.ltb_lt in Ha. lia. }
  destruct (getitem l b); [reflexivity|discriminate].
Qed.

Lemma lookup_pair_raises {A B : Type} (l : list A) (a b : Z)
    (k : A -> A -> B) (e : exn) :
  (do p <- getitem l a; do q <- getitem l b; OK (k p q)) = Raise e ->
  e = IndexError.
Proof.
  destruct (getitem l a) as [p|e1] eqn:Ea; cbn [bind].
  - destruct (getitem l b) as [q|e2] eqn:Eb; cbn [bind]; [discriminate|].
    intros [= <-]. now apply getitem_raises in Eb.
  - intros [= <-]. now apply getitem_raises in Ea.
Qed.

(** The five finger names. *)
Definition finger_names : list string :=
  ["thumb"; "index"; "middle"; "ring"; "pinky"].

(** X1: a finger test returns exactly when the list reaches the tip landmark
    of the finger (5 landmarks for the thumb, 9, 13, 17 and 21 for the
    others) and otherwise fails with [IndexError]; a name that is not one of
    the five fingers gives [False] on every list, the empty one included. *)
Theorem is_finger_up_bounds (lm : list point) :
  is_ok (HandTracker.is_finger_up lm "thumb") = (4 <? len lm)
  /\ is_ok (HandTracker.is_finger_up lm "index") = (8 <? len lm)
  /\ is_ok (HandTracker.is_finger_up lm "middle") = (12 <? len lm)
  /\ is_ok (HandTracker.is_finger_up lm "ring") = (16 <? len lm)
  /\ is_ok (HandTracker.is_finger_up lm "pinky") = (20 <? len lm)
  /\ (forall finger e,
        HandTracker.is_finger_up lm finger = Raise e -> e = IndexError)
  /\ (forall finger,
        ~ In finger finger_names ->
        HandTracker.is_finger_up lm finger = OK false).
Proof.
  repeat split;
    try (apply lookup_pair_is_ok; cbv; split; discriminate).
  - intros finger e. unfold HandTracker.is_finger_up.
    repeat match goal with
           | |- context [String.eqb finger ?n] =>
               destruct (String.eqb finger n); [apply lookup_pair_raises|]
           end.
    discriminate.
  - intros finger Hn. unfold HandTracker.is_finger_up.
    repeat match goal with
           | |- context [String.eqb finger ?n] =>
               destruct (String.eqb_spec finger n) as [->|_];
               [exfalso; apply Hn; simpl; tauto|]
           end.
    reflexivity.
Qed.

Lemma is_finger_up_bounds_witness :
  HandTracker.is_finger_up minimal_landmarks "toe" = OK false.
Proof.
  apply (is_finger_up_bounds minimal_landmarks).
  simpl. intros H. repeat (destruct H as [H|H]; [discriminate H|]). exact H.
Defined.

(* ================================================================== *)
(** ** Bounding box and centre *)
(* ================================================================== *)

Lemma fold_min_spec (r : list Z) (x : Z) :
  In (fold_left Z.min r x) (x :: r)
  /\ forall y, In y (x :: r) -> fold_left Z.min r x <= y.
Proof.
  revert x. induction r as [|z r IH]; intros x; simpl.
  - split; [now left|]. intros y [<-|[]]. lia.
  - destruct (IH (Z.min x z)) as [Hin Hle]. split.
    + destruct Hin as [Hin|Hin]; [|now right; right].
      rewrite <- Hin. destruct (Z.min_spec x z) as [[_ ->]|[_ ->]]; tauto.
    + intros y [<-|[<-|Hy]].
      * specialize (Hle (Z.min x z) (or_introl eq_refl)). lia.
      * specialize (Hle (Z.min x z) (or_introl eq_refl)). lia.
      * apply Hle. now right.
Qed.

Lemma fold_max_spec (r : list Z) (x : Z) :
  In (fold_left Z.max r x) (x :: r)
  /\ forall y, In y (x :: r) -> y <= fold_left Z.max r x.
Proof.
  revert x. induction r as [|z r IH]; intros x; simpl.
  - split; [now left|]. intros y [<-|[]]. lia.
  - destruct (IH (Z.max x z)) as [Hin Hle]. split.
    + destruct Hin as [Hin|Hin]; [|now right; right].
      rewrite <- Hin. destruct (Z.max_spec x z) as [[_ ->]|[_ ->]]; tauto.
    + intros y [<-|[<-|Hy]].
      * specialize (Hle (Z.max x z) (or_introl eq_refl)). lia.
      * specialize (Hle (Z.max x z) (or_introl eq_refl)). lia.
      * apply Hle. now right.
Qed.

Lemma py_min_spec (l : list Z) :
  l <> [] ->
  exists m, Py.min l = OK m /\ In m l /\ forall y, In y l -> m <= y.
Proof.
  destruct l as [|x r]; [congruence|]. intros _.
  exists (fold_left Z.min r x). split; [reflexivity|]. apply fold_min_spec.
Qed.

Lemma py_max_spec (l : list Z) :
  l <> [] ->
  exists m, Py.max l = OK m /\ In m l /\ forall y, In y l -> y <= m.
Proof.
  destruct l as [|x r]; [congruence|]. intros _.
  exists (fold_left Z.max r x). split; [reflexivity|]. apply fold_max_spec.
Qed.

Lemma map_nonempty {A B : Type} (f : A -> B) (l : list A) :
  l <> [] -> map f l <> [].
Proof. destruct l; [congruence|discriminate]. Qed.

(** The box of a non-empty list, with what makes it the bounding box. *)
Lemma bounding_box_spec (lm : list point) :
  lm <> [] ->
  exists x0 y0 x1 y1,
    HandTracker.get_bounding_box lm = OK (x0, y0, x1, y1)
    /\ (In x0 (map fst lm) /\ forall x, In x (map fst lm) -> x0 <= x)
    /\ (In y0 (map snd lm) /\ forall y, In y (map snd lm) -> y0 <= y)
    /\ (In x1 (map fst lm) /\ forall x, In x (map fst lm) -> x <= x1)
    /\ (In y1 (map snd lm) /\ forall y, In y (map snd lm) -> y <= y1).
Proof.
  intros H. unfold HandTracker.get_bounding_box.
  destruct (py_min_spec (map fst lm)) as (x0 & E0 & H0); [now apply map_nonempty|].
  destruct (py_max_spec (map fst lm)) as (x1 & E1 & H1); [now apply map_nonempty|].
  destruct (py_min_spec (map snd lm)) as (y0 & E2 & H2); [now apply map_nonempty|].
  destruct (py_max_spec (map snd lm)) as (y1 & E3 & H3); [now apply map_nonempty|].
  exists x0, y0, x1, y1. rewrite E0, E1, E2, E3. cbn [bind]. tauto.
Qed.

(** X2: for every non-empty list of points [get_bounding_box] returns a box
    that contains every point and that is tight: each of its four sides
    goes through one of the points. *)
Theorem bounding_box_encloses (lm : list point) :
  lm <> [] ->
  exists x0 y0 x1 y1,
    HandTracker.get_bounding_box lm = OK (x0, y0, x1, y1)
    /\ (forall p, In p lm -> x0 <= fst p <= x1 /\ y0 <= snd p <= y1)
    /\ (exists p, In p lm /\ fst p = x0)
    /\ (exists p, In p lm /\ snd p = y0)
    /\ (exists p, In p lm /\ fst p = x1)
    /\ (exists p, In p lm /\ snd p = y1).
Proof.
  intros H.
  destruct (bounding_box_spec lm H)
    as (x0 & y0 & x1 & y1 & E & [I0 L0] & [I1 L1] & [I2 L2] & [I3 L3]).
  exists x0, y0, x1, y1. split; [exact E|]. split.
  - intros p Hp.
    pose proof (in_map fst lm p Hp). pose proof (in_map snd lm p Hp).
    repeat split; auto.
  - apply in_map_iff in I0, I1, I2, I3.
    destruct I0 as (p0 & ? & ?), I1 as (p1 & ? & ?),
             I2 as (p2 & ? & ?), I3 as (p3 & ? & ?).
    repeat split; eauto.
Qed.

Lemma bounding_box_encloses_witness :
  exists x0 y0 x1 y1,
    HandTracker.get_bounding_box open_frame = OK (x0, y0, x1, y1)
    /\ (forall p, In p open_frame -> x0 <= fst p <= x1 /\ y0 <= snd p <= y1)
    /\ (exists p, In p open_frame /\ fst p = x0)
    /\ (exists p, In p open_frame /\ snd p = y0)
    /\ (exists p, In p open_frame /\ fst p = x1)
    /\ (exists p, In p open_frame /\ snd p = y1).
Proof. apply (bounding_box_encloses open_frame). discriminate. Defined.

Lemma sum_from (l : list Z) (acc : Z) : fold_left Z.add l acc = acc + sum l.
Proof.
  unfold sum. revert acc. induction l as [|x l IH]; intros acc; simpl; [lia|].
  rewrite (IH (acc + x)), (IH x). lia.
Qed.

Lemma sum_cons (x : Z) (l : list Z) : sum (x :: l) = x + sum l.
Proof. unfold sum at 1. simpl. apply sum_from. Qed.

Lemma len_cons {A : Type} (x : A) (l : list A) : len (x :: l) = len l + 1.
Proof. unfold len. simpl List.length. lia. Qed.

(** The sum of a list lies between its length times a lower bound and its
    length times an upper bound of the members. *)
Lemma sum_bounds (l : list Z) (lo hi : Z) :
  (forall x, In x l -> lo <= x <= hi) ->
  len l * lo <= sum l <= len l * hi.
Proof.
  induction l as [|x l IH]; intros H; [cbv; split; discriminate|].
  rewrite sum_cons, len_cons.
  assert (lo <= x <= hi) by (apply H; now left).
  assert (len l * lo <= sum l <= len l * hi)
    by (apply IH; intros y Hy; apply H; now right).
  lia.
Qed.

(** X3: for every non-empty list of points the centre that
    [get_hand_center] returns lies inside the box that [get_bounding_box]
    returns, the sides included. *)
Theorem center_in_bounding_box (lm : list point) :
  lm <> [] ->
  exists cx cy x0 y0 x1 y1,
    HandTracker.get_hand_center lm = OK (cx, cy)
    /\ HandTracker.get_bounding_box lm = OK (x0, y0, x1, y1)
    /\ x0 <= cx <= x1
    /\ y0 <= cy <= y1.
Proof.
  intros H.
  destruct (bounding_box_spec lm H)
    as (x0 & y0 & x1 & y1 & E & [_ L0] & [_ L1] & [_ L2] & [_ L3]).
  exists (sum (map fst lm) / len lm), (sum (map snd lm) / len lm),
         x0, y0, x1, y1.
  split; [now apply get_hand_center_nonempty|]. split; [exact E|].
  pose proof (len_pos lm H) as Hn.
  assert (Bx : len lm * x0 <= sum (map fst lm) <= len lm * x1).
  { rewrite <- (@len_map point Z fst lm). apply sum_bounds.
    intros x Hx. split; auto. }
  assert (By : len lm * y0 <= sum (map snd lm) <= len lm * y1).
  { rewrite <- (@len_map point Z snd lm). apply sum_bounds.
    intros y Hy. split; auto. }
  repeat split.
  - apply Z.div_le_lower_bound; lia.
  - apply Z.div_le_upper_bound; lia.
  - apply Z.div_le_lower_bound; lia.
  - apply Z.div_le_upper_bound; lia.
Qed.

Lemma center_in_bounding_box_witness :
  exists cx cy x0 y0 x1 y1,
    HandTracker.get_hand_center minimal_landmarks = OK (cx, cy)
    /\ HandTracker.get_bounding_box minimal_landmarks = OK (x0, y0, x1, y1)
    /\ x0 <= cx <= x1
    /\ y0 <= cy <= y1.
Proof. apply (center_in_bounding_box minimal_landmarks). discriminate. Defined.

(* ================================================================== *)
(** ** Moving the hand in the image *)
(* ================================================================== *)

(** Every landmark shifted by [(dx, dy)]. *)
Definition translate (dx dy : Z) (lm : list point) : list point :=
  map (fun p => (fst p + dx, snd p + dy)) lm.

Lemma getitem_map {A B : Type} (f : A -> B) (l : list A) (i : Z) :
  getitem (map f l) i
  = match getitem l i with OK a => OK (f a) | Raise e => Raise e end.
Proof.
  unfold getitem. rewrite len_map. destruct (_ <? 0); [reflexivity|].
  rewrite nth_error_map. destruct (nth_error l _); reflexivity.
Qed.

Lemma x_gt_translate (dx dy : Z) (lm : list point) (a b : Z) :
  HandTracker.x_gt (translate dx dy lm) a b = HandTracker.x_gt lm a b.
Proof.
  unfold HandTracker.x_gt, translate, point in *. rewrite !getitem_map.
  destruct (getitem lm a) as [p|]; cbn [bind]; [|reflexivity].
  destruct (getitem lm b) as [q|]; cbn [bind fst]; [|reflexivity].
  f_equal.
  destruct (Z.ltb_spec (fst q) (fst p)), (Z.ltb_spec (fst q + dx) (fst p + dx));
    (reflexivity || lia).
Qed.

Lemma y_lt_translate (dx dy : Z) (lm : list point) (a b : Z) :
  HandTracker.y_lt (translate dx dy lm) a b = HandTracker.y_lt lm a b.
Proof.
  unfold HandTracker.y_lt, translate, point in *. rewrite !getitem_map.
  destruct (getitem lm a) as [p|]; cbn [bind]; [|reflexivity].
  destruct (getitem lm b) as [q|]; cbn [bind snd]; [|reflexivity].
  f_equal.
  destruct (Z.ltb_spec (snd p) (snd q)), (Z.ltb_spec (snd p + dy) (snd q + dy));
    (reflexivity || lia).
Qed.

Lemma is_finger_up_translate (dx dy : Z) (lm : list point) (finger : string) :
  HandTracker.is_finger_up (translate dx dy lm) finger
  = HandTracker.is_finger_up lm finger.
Proof.
  unfold HandTracker.is_finger_up.
  now rewrite x_gt_translate, !y_lt_translate.
Qed.

Lemma count_loop_translate (dx dy : Z) (lm : list point)
    (fingers : list string) (count : Z) :
  HandTracker.count_loop (translate dx dy lm) fingers count
  = HandTracker.count_loop lm fingers count.
Proof.
  revert count. induction fingers as [|f fs IH]; intros count; simpl;
    [reflexivity|].
  rewrite is_finger_up_translate.
  destruct (HandTracker.is_finger_up lm f); [apply IH|reflexivity].
Qed.

(** X4: the label does not depend on where the hand is in the image: on
    landmarks shifted by any whole number of pixels the finger tests, the
    finger count, the label of the frame and the whole call of
    [recognize_gesture] (exceptions included) are what they are on the
    landmarks themselves. *)
Theorem gesture_translation_invariant (dx dy : Z) (lm : list point) :
  (forall finger,
      HandTracker.is_finger_up (translate dx dy lm) finger
      = HandTracker.is_finger_up lm finger)
  /\ HandTracker.count_fingers (translate dx dy lm)
     = HandTracker.count_fingers lm
  /\ HandTracker.raw_gesture (translate dx dy lm) = HandTracker.raw_gesture lm
  /\ forall so st,
       HandTracker.recognize_gesture so st (translate dx dy lm)
       = HandTracker.recognize_gesture so st lm.
Proof.
  assert (Hc : HandTracker.count_fingers (translate dx dy lm)
               = HandTracker.count_fingers lm)
    by apply count_loop_translate.
  assert (Hr : HandTracker.raw_gesture (translate dx dy lm)
               = HandTracker.raw_gesture lm).
  { unfold HandTracker.raw_gesture.
    now rewrite Hc, !is_finger_up_translate. }
  split; [intros f; apply is_finger_up_translate|].
  split; [exact Hc|]. split; [exact Hr|].
  intros so st. unfold HandTracker.recognize_gesture. now rewrite Hr.
Qed.

Lemma sum_shift (d : Z) (l : list Z) :
  sum (map (fun x => x + d) l) = sum l + len l * d.
Proof.
  induction l as [|x l IH]; [reflexivity|].
  cbn [map]. rewrite !sum_cons, len_cons, IH. lia.
Qed.

Lemma fold_min_shift (d : Z) (r : list Z) (x : Z) :
  fold_left Z.min (map (fun y => y + d) r) (x + d) = fold_left Z.min r x + d.
Proof.
  revert x. induction r as [|z r IH]; intros x; simpl; [reflexivity|].
  rewrite <- IH. f_equal. lia.
Qed.

Lemma fold_max_shift (d : Z) (r : list Z) (x : Z) :
  fold_left Z.max (map (fun y => y + d) r) (x + d) = fold_left Z.max r x + d.
Proof.
  revert x. induction r as [|z r IH]; intros x; simpl; [reflexivity|].
  rewrite <- IH. f_equal. lia.
Qed.

(** X5: the centre and the bounding box move with the hand: on landmarks
    shifted by [(dx, dy)] [get_hand_center] returns the centre of the
    landmarks shifted by [(dx, dy)], and [get_bounding_box] the box shifted
    likewise; on the empty list both fail as before. *)
Theorem center_and_box_translate (dx dy : Z) (lm : list point) :
  HandTracker.get_hand_center (translate dx dy lm)
  = match HandTracker.get_hand_center lm with
    | OK (cx, cy) => OK (cx + dx, cy + dy)
    | Raise e => Raise e
    end
  /\ HandTracker.get_bounding_box (translate dx dy lm)
     = match HandTracker.get_bounding_box lm with
       | OK (x0, y0, x1, y1) => OK (x0 + dx, y0 + dy, x1 + dx, y1 + dy)
       | Raise e => Raise e
       end.
Proof.
  destruct lm as [|p lm]; [split; reflexivity|].
  assert (Hx : map fst (translate dx dy (p :: lm))
               = map (fun x => x + dx) (map fst (p :: lm)))
    by (unfold translate; rewrite !map_map; reflexivity).
  assert (Hy : map snd (translate dx dy (p :: lm))
               = map (fun y => y + dy) (map snd (p :: lm)))
    by (unfold translate; rewrite !map_map; reflexivity).
  split.
  - rewrite (get_hand_center_nonempty (p :: lm)) by discriminate.
    unfold translate at 1.
    rewrite get_hand_center_nonempty by discriminate.
    fold (translate dx dy (p :: lm)).
    rewrite Hx, Hy, !sum_shift, !len_map.
    assert (Hn : 0 < len (p :: lm)) by (apply len_pos; discriminate).
    assert (Hd : forall s d, (s + len (p :: lm) * d) / len (p :: lm)
                             = s / len (p :: lm) + d)
      by (intros s d; rewrite (Z.mul_comm (len (p :: lm)) d), Z.div_add by lia;
          reflexivity).
    replace (len (translate dx dy (p :: lm))) with (len (p :: lm))
      by (unfold translate; now rewrite len_map).
    now rewrite !Hd.
  - unfold HandTracker.get_bounding_box. rewrite Hx, Hy.
    cbn [map Py.min Py.max bind].
    now rewrite !fold_min_shift, !fold_max_shift.
Qed.

(* ================================================================== *)
(** ** What the history vote returns *)
(* ================================================================== *)

Lemma count_cons (x y : string) (h : list string) :
  count (y :: h) x = count h x + (if string_dec y x then 1 else 0).
Proof. unfold count. simpl. destruct (string_dec y x); lia. Qed.

Lemma count_app (h1 h2 : list string) (x : string) :
  count (h1 ++ h2) x = count h1 x + count h2 x.
Proof. unfold count. rewrite count_occ_app. lia. Qed.

Lemma count_le_len (h : list string) (x : string) : 0 <= count h x <= len h.
Proof.
  induction h as [|y h IH]; [cbv; split; discriminate|].
  rewrite count_cons, len_cons. destruct (string_dec y x); lia.
Qed.

(** Two different labels share the window. *)
Lemma count_two (h : list string) (x g : string) :
  x <> g -> count h x + count h g <= len h.
Proof.
  intros Hne. induction h as [|y h IH]; [cbv; discriminate|].
  rewrite !count_cons, len_cons.
  destruct (string_dec y x), (string_dec y g); try lia. congruence.
Qed.

(** A label that fills more than half of the history is the most common
    one, whatever the set order. *)
Lemma most_common_strict_majority (so : SetOrder) (h : list string)
    (g : string) :
  len h < 2 * count h g -> HandTracker.most_common so h = OK g.
Proof.
  intros H. apply most_common_majority.
  - apply (count_occ_In string_dec). pose proof (len_pos h).
    unfold count in H. destruct h; [cbv in H; discriminate|].
    assert (0 <= len (s :: h)) by (unfold len; lia). lia.
  - intros x _ Hne. pose proof (count_two h x g Hne). lia.
Qed.

Lemma last_n_suffix {A : Type} (n : nat) (a b : list A) :
  (List.length b <= n)%nat ->
  last_n n (a ++ b) = (last_n (n - List.length b) a ++ b)%list.
Proof.
  intros H. unfold last_n. rewrite length_app, skipn_app.
  replace (List.length a + List.length b - n - List.length a)%nat
    with 0%nat by lia.
  cbn [skipn]. f_equal. f_equal. lia.
Qed.

Lemma last_n_In {A : Type} (n : nat) (l : list A) (x : A) :
  In x (last_n n l) -> In x l.
Proof.
  unfold last_n. intros H.
  rewrite <- (firstn_skipn (List.length l - n) l).
  apply in_or_app. now right.
Qed.

(** X6: on a tracker with window size 5 [recognize_gesture] returns a label
    of the window as it is after the push, one that no other label of the
    window outnumbers; a label that fills more than half of that window is
    the one returned, whatever order the set iterates in. *)
Theorem recognize_gesture_majority (so : SetOrder) (st : HandTracker.state)
    (lm : list point) (g0 : string) :
  HandTracker.raw_gesture lm = OK g0 ->
  HandTracker.gesture_buffer_size st = 5 ->
  (List.length (HandTracker.gesture_history st) <= 5)%nat ->
  let window := last_n 5 (HandTracker.gesture_history st ++ [g0]) in
  (exists g,
      fst (HandTracker.recognize_gesture so st lm) = OK g
      /\ In g window
      /\ forall x, count window x <= count window g)
  /\ (forall g,
        len window < 2 * count window g ->
        fst (HandTracker.recognize_gesture so st lm) = OK g).
Proof.
  intros Hg Hsize Hlen window.
  rewrite (recognize_gesture_step so st lm g0 Hg Hsize Hlen). cbn [fst].
  fold window. split.
  - destruct (most_common_spec so window)
      as (m & pre & post & E & _ & Hin & Hmax & _).
    { intros E. apply (f_equal (@List.length string)) in E.
      unfold window in E. rewrite last_n_length, length_app in E.
      cbn [List.length] in E. lia. }
    exists m. split; [exact E|]. split; [exact Hin|].
    intros x. destruct (in_dec string_dec x window) as [Hx|Hx]; [auto|].
    unfold count at 1. rewrite (proj1 (count_occ_not_In string_dec _ _) Hx).
    apply count_le_len.
  - intros g. apply most_common_strict_majority.
Qed.

Lemma recognize_gesture_majority_witness :
  let window :=
    last_n 5 (HandTracker.gesture_history HandTracker.init ++ ["point"]) in
  (exists g,
      fst (HandTracker.recognize_gesture first_seen_order HandTracker.init
             point_frame) = OK g
      /\ In g window
      /\ forall x, count window x <= count window g)
  /\ (forall g,
        len window < 2 * count window g ->
        fst (HandTracker.recognize_gesture first_seen_order HandTracker.init
               point_frame) = OK g).
Proof.
  apply (recognize_gesture_majority first_seen_order HandTracker.init
           point_frame "point"); [reflexivity|reflexivity|simpl; lia].
Defined.



(** X8: on a tracker with window size 5 whose last three labels were the
    same, one frame with whatever label does not change the output: the
    call still returns the label of the three. *)
Theorem single_glitch_suppressed (so : SetOrder) (st : HandTracker.state)
    (lm : list point) (g g' : string) (earlier : list string) :
  HandTracker.gesture_buffer_size st = 5 ->
  HandTracker.gesture_history st = (earlier ++ [g; g; g])%list ->
  (List.length earlier <= 2)%nat ->
  HandTracker.raw_gesture lm = OK g' ->
  fst (HandTracker.recognize_gesture so st lm) = OK g.
Proof.
  intros Hsize Hh Hlen Hg.
  rewrite (recognize_gesture_step so st lm g' Hg Hsize)
    by (rewrite Hh, length_app; simpl; lia).
  cbn [fst]. rewrite Hh, <- app_assoc. cbn [app].
  rewrite (last_n_suffix 5 earlier [g; g; g; g']) by (simpl; lia).
  apply most_common_strict_majority.
  rewrite count_app. unfold len. rewrite length_app, last_n_length.
  pose proof (count_le_len (last_n (5 - List.length [g; g; g; g']) earlier) g).
  assert (3 <= count [g; g; g; g'] g).
  { rewrite !count_cons. destruct (string_dec g g); [|congruence].
    destruct (string_dec g' g); cbv; discriminate. }
  cbn [List.length] in *. lia.
Qed.

Lemma single_glitch_suppressed_witness :
  fst (HandTracker.recognize_gesture last_seen_order
         {| HandTracker.gesture_history :=
              ["point"; "open_hand"; "open_hand"; "open_hand"];
            HandTracker.gesture_buffer_size := 5 |}
         fist_frame) = OK "open_hand".
Proof.
  apply (single_glitch_suppressed last_seen_order _ fist_frame
           "open_hand" "fist" ["point"]);
    (reflexivity || (simpl; lia)).
Defined.

Lemma static_label_named (fs : FingerState) : In (static_label fs) named_labels.
Proof. destruct fs as [[] [] [] [] []]; cbv; tauto. Qed.

Lemma raw_gesture_named (lm : list point) :
  (21 <= List.length lm)%nat ->
  exists g, HandTracker.raw_gesture lm = OK g /\ In g named_labels.
Proof.
  intros H. destruct (fingers_of_frame lm H) as (fs & Hfs & _).
  exists (static_label fs). split; [now apply raw_gesture_of_frame|].
  apply static_label_named.
Qed.

(** One call keeps a history of named labels a history of named labels and
    returns a named label. *)
Lemma recognize_gesture_named (so : SetOrder) (st : HandTracker.state)
    (lm : list point) :
  (21 <= List.length lm)%nat ->
  Forall (fun g => In g named_labels) (HandTracker.gesture_history st) ->
  (exists g, fst (HandTracker.recognize_gesture so st lm) = OK g
             /\ In g named_labels)
  /\ Forall (fun g => In g named_labels)
       (HandTracker.gesture_history
          (snd (HandTracker.recognize_gesture so st lm))).
Proof.
  intros Hlm Hh. destruct (raw_gesture_named lm Hlm) as (g & Hg & Hn).
  unfold HandTracker.recognize_gesture. rewrite Hg.
  set (appended := (HandTracker.gesture_history st ++ [g])%list).
  assert (Happ : Forall (fun g => In g named_labels) appended).
  { apply Forall_app. split; [exact Hh|]. constructor; [exact Hn|constructor]. }
  set (history := if HandTracker.gesture_buffer_size st <? len appended
                  then pop0 appended else appended).
  assert (Hhist : Forall (fun g => In g named_labels) history).
  { unfold history.
    destruct (HandTracker.gesture_buffer_size st <? len appended);
      [|exact Happ].
    destruct appended; [constructor|]. now inversion Happ. }
  destruct history as [|x r] eqn:E.
  - split; [now exists g|constructor].
  - split; [|exact Hhist]. cbn [fst].
    destruct (most_common_spec so (x :: r))
      as (m & pre & post & Em & _ & Hin & _); [discriminate|].
    exists m. split; [exact Em|].
    rewrite Forall_forall in Hhist. now apply Hhist.
Qed.

(** X9: a tracker whose history holds named labels only (a fresh tracker
    has an empty one), fed frames of at least 21 landmarks, returns one of
    the nine named labels at every call: it never fails and never returns
    [unknown], whatever its window size and the set order. *)
Theorem results_are_named_labels (so : SetOrder)
    (frames : list (list point)) :
  Forall (fun f => (21 <= List.length f)%nat) frames ->
  forall st,
    Forall (fun g => In g named_labels) (HandTracker.gesture_history st) ->
    Forall (fun r => exists g, r = OK g /\ In g named_labels /\ g <> "unknown")
           (fst (HandTracker.run so st frames)).
Proof.
  induction 1 as [|f frames Hf _ IH]; intros st Hst; [constructor|].
  cbn [HandTracker.run].
  destruct (recognize_gesture_named so st f Hf Hst) as [(g & Eg & Hg) Hnext].
  destruct (HandTracker.recognize_gesture so st f) as [r st1].
  cbn [fst snd] in *. specialize (IH st1 Hnext).
  destruct (HandTracker.run so st1 frames) as [rs st2]. cbn [fst] in *.
  constructor; [|exact IH].
  exists g. split; [exact Eg|]. split; [exact Hg|].
  intros ->. simpl in Hg. repeat (destruct Hg as [Hg|Hg]; [discriminate Hg|]).
  exact Hg.
Qed.

Lemma results_are_named_labels_witness :
  Forall (fun r => exists g, r = OK g /\ In g named_labels /\ g <> "unknown")
         (fst (HandTracker.run first_seen_order HandTracker.init
                 [fist_frame; long_frame; open_frame])).
Proof.
  apply (results_are_named_labels first_seen_order
           [fist_frame; long_frame; open_frame]).
  - repeat constructor.
  - constructor.
Defined.

(* ================================================================== *)
(** ** More on the hold state machine *)
(* ================================================================== *)

(** Number of calls whose label differs from the label of the call before
    ([last] standing for the call before the first). *)
Fixpoint changes (last : option string) (calls : list GC.call) : nat :=
  match calls with
  | [] => 0%nat
  | c :: rest =>
      ((if GC.differs (GC.gesture c) last then 1 else 0)
       + changes (Some (GC.gesture c)) rest)%nat
  end.

Lemma hold_labels (g : string) (lm : list point) (times : list Q) :
  Forall (fun c => GC.gesture c = g) (GC.hold g lm times).
Proof.
  unfold GC.hold. apply Forall_forall. intros c Hc.
  apply in_map_iff in Hc. destruct Hc as (? & <- & _). reflexivity.
Qed.

(** While the start time fails the test of [process_gesture], calls with
    the held label return [None] and change nothing. *)
Lemma run_not_held (g : string) (lm : list point) (times : list Q)
    (st : GC.state) :
  GC.last_gesture st = Some g ->
  (forall t, In t times -> GC.held_long_enough st t = false) ->
  GC.run st (GC.hold g lm times) = (map (fun _ => None) times, st).
Proof.
  intros Hl. induction times as [|t times IH]; intros H; [reflexivity|].
  change (GC.hold g lm (t :: times))
    with ({| GC.at_time := t; GC.gesture := g; GC.landmarks := lm |}
          :: GC.hold g lm times).
  cbn [GC.run GC.at_time GC.gesture GC.landmarks map].
  unfold GC.process_gesture.
  rewrite Hl, differs_same, (H t) by now left.
  rewrite IH; [reflexivity|].
  intros t' Ht'. apply H. now right.
Qed.



(** X11: a label that has no entry in [gesture_actions] ([unknown], the
    names of the motion detectors, any other string) never returns a
    result, however long it is held and whatever the controller's state. *)
Theorem unlisted_gesture_never_fires (calls : list GC.call) :
  Forall (fun c => dict_get GC.gesture_actions (GC.gesture c) = None) calls ->
  forall st, fst (GC.run st calls) = map (fun _ => None) calls.
Proof.
  induction 1 as [|c calls Hc _ IH]; intros st; [reflexivity|].
  simpl. unfold GC.process_gesture. rewrite Hc.
  destruct (GC.differs (GC.gesture c) (GC.last_gesture st)).
  - specialize (IH {| GC.last_gesture := Some (GC.gesture c);
                      GC.gesture_start_time := Some (GC.at_time c);
                      GC.min_gesture_duration := GC.min_gesture_duration st |}).
    destruct (GC.run _ calls). simpl in *. now rewrite IH.
  - specialize (IH st).
    destruct (GC.held_long_enough st (GC.at_time c));
      destruct (GC.run st calls); simpl in *; now rewrite IH.
Qed.

Lemma unlisted_gesture_never_fires_witness :
  fst (GC.run GC.init (GC.hold "unknown" fist_frame hold_times))
  = map (fun _ => None) (GC.hold "unknown" fist_frame hold_times).
Proof.
  apply (unlisted_gesture_never_fires
           (GC.hold "unknown" fist_frame hold_times)).
  repeat constructor.
Defined.

(** X12: a hold whose first call reads the clock at 0.0 never returns a
    result: [process_gesture] tests the stored start time for truth, and
    the reading 0.0 is false like [None]. *)
Theorem zero_start_never_fires (st : GC.state) (g : string)
    (lm : list point) (t0 : Q) (times : list Q) :
  GC.differs g (GC.last_gesture st) = true ->
  (t0 == 0)%Q ->
  fst (GC.run st (GC.hold g lm (t0 :: times)))
  = map (fun _ => None) (t0 :: times).
Proof.
  intros Hd Hz.
  change (GC.hold g lm (t0 :: times))
    with ({| GC.at_time := t0; GC.gesture := g; GC.landmarks := lm |}
          :: GC.hold g lm times).
  cbn [GC.run GC.at_time GC.gesture GC.landmarks map].
  unfold GC.process_gesture at 1. rewrite Hd.
  rewrite (run_not_held g lm times); [reflexivity|reflexivity|].
  intros t _. unfold GC.held_long_enough. simpl.
  apply Qeq_bool_iff in Hz. now rewrite Hz.
Qed.

Lemma zero_start_never_fires_witness :
  fst (GC.run GC.init (GC.hold "open_hand" open_frame (0%Q :: hold_times)))
  = map (fun _ => None) (0%Q :: hold_times).
Proof.
  apply (zero_start_never_fires GC.init "open_hand" open_frame 0 hold_times);
    reflexivity.
Defined.

(** After a call the controller remembers the label of that call. *)
Lemma process_gesture_last (st : GC.state) (t : Q) (g : string)
    (lm : list point) :
  GC.last_gesture (snd (GC.process_gesture st t g lm)) = Some g.
Proof.
  unfold GC.process_gesture.
  destruct (GC.differs g (GC.last_gesture st)) eqn:Hd; [reflexivity|].
  apply differs_false in Hd.
  destruct (GC.held_long_enough st t); [|exact Hd].
  destruct (dict_get GC.gesture_actions g); exact Hd.
Qed.

(** What a stored start time can still yield: one result. *)
Definition pending (st : GC.state) : nat :=
  match GC.gesture_start_time st with
  | None => 0%nat
  | Some _ => 1%nat
  end.

Lemma results_bounded (calls : list GC.call) :
  forall st,
    (GC.fired (fst (GC.run st calls))
     <= changes (GC.last_gesture st) calls + pending st)%nat.
Proof.
  induction calls as [|c calls IH]; intros st; [simpl; lia|].
  cbn [GC.run changes].
  pose proof (process_gesture_last st (GC.at_time c) (GC.gesture c)
                (GC.landmarks c)) as Hlast.
  revert Hlast. unfold GC.process_gesture.
  destruct (GC.differs (GC.gesture c) (GC.last_gesture st)) eqn:Hd.
  - intros _.
    specialize (IH {| GC.last_gesture := Some (GC.gesture c);
                      GC.gesture_start_time := Some (GC.at_time c);
                      GC.min_gesture_duration := GC.min_gesture_duration st |}).
    unfold pending in IH at 1. destruct (GC.run _ calls). simpl in *. lia.
  - destruct (GC.held_long_enough st (GC.at_time c)) eqn:Hh.
    + assert (Hp : pending st = 1%nat).
      { unfold pending. unfold GC.held_long_enough in Hh.
        destruct (GC.gesture_start_time st); [reflexivity|discriminate]. }
      destruct (dict_get GC.gesture_actions (GC.gesture c)).
      * cbn [snd GC.last_gesture]. intros Hlast.
        specialize (IH {| GC.last_gesture := GC.last_gesture st;
                          GC.gesture_start_time := None;
                          GC.min_gesture_duration :=
                            GC.min_gesture_duration st |}).
        destruct (GC.run _ calls). simpl in *. rewrite Hlast in IH.
        unfold pending in IH. simpl in IH. lia.
      * cbn [snd]. intros Hlast. specialize (IH st).
        destruct (GC.run st calls). simpl in *. rewrite Hlast in IH. lia.
    + cbn [snd]. intros Hlast. specialize (IH st).
      destruct (GC.run st calls). simpl in *. rewrite Hlast in IH. lia.
Qed.

(** X13: over any sequence of calls on a fresh controller the number of
    results never exceeds the number of label changes (the first call
    counting as one); on a controller in any state it exceeds it by one at
    most, for the hold under way. *)
Theorem results_bounded_by_changes (calls : list GC.call) :
  (GC.fired (fst (GC.run GC.init calls)) <= changes None calls)%nat
  /\ forall st,
       (GC.fired (fst (GC.run st calls))
        <= changes (GC.last_gesture st) calls + 1)%nat.
Proof.
  split.
  - pose proof (results_bounded calls GC.init) as H.
    unfold pending in H. simpl in H. lia.
  - intros st. pose proof (results_bounded calls st) as H.
    assert (pending st <= 1)%nat
      by (unfold pending; destruct (GC.gesture_start_time st); lia).
    lia.
Qed.

(* ================================================================== *)
(** ** The motion detectors of [AdvancedGestureRecognizer] *)
(* ================================================================== *)

(** A stand-in for the floats, to run the detectors on examples: integers
    with floor division and floor square root.  It agrees with the floats
    wherever the exact results are integers. *)
Definition integer_floats : FloatOps :=
  {| float := Z;
     of_int := fun z => z;
     fadd := Z.add;
     fsub := Z.sub;
     fdiv := Z.div;
     fsquare := fun x => x * x;
     fsqrt := Z.sqrt;
     flt := Z.ltb |}.

(** Index and pinky up, the other fingers down. *)
Definition rock_frame : list point := frame_of false true false false true.

(** [xs[0] <= xs[1] <= ...] and [xs[0] >= xs[1] >= ...] *)
Fixpoint nondecreasing (xs : list Z) : bool :=
  match xs with
  | a :: ((b :: _) as rest) => (a <=? b) && nondecreasing rest
  | _ => true
  end.

Fixpoint nonincreasing (xs : list Z) : bool :=
  match xs with
  | a :: ((b :: _) as rest) => (b <=? a) && nonincreasing rest
  | _ => true
  end.

(** The centres that a sequence of frames adds to the position history:
    one per frame that has a centre. *)
Definition centres (frames : list (list point)) : list point :=
  flat_map (fun f => match AGR.get_hand_center f with
                     | OK c => [c]
                     | Raise _ => []
                     end) frames.

Section MotionDetectors.

Context {F : FloatOps}.

(** Successive calls of [recognize_advanced_gestures], one per frame. *)
Fixpoint advanced_run (self : AGR.state) (frames : list (list point))
  : list (res (list string)) * AGR.state :=
  match frames with
  | [] => ([], self)
  | f :: rest =>
      let (r, self1) := AGR.recognize_advanced_gestures self f in
      let (rs, self2) := advanced_run self1 rest in
      (r :: rs, self2)
  end.

(** X14: the two swipe detectors never answer true together: whatever the
    recognizer's history and the landmarks, when [detect_swipe_right]
    returns true [detect_swipe_left] returns false. *)
Theorem swipes_exclusive (st : AGR.state) (lm : list point) :
  AGR.detect_swipe_right st lm = OK true ->
  AGR.detect_swipe_left st lm = OK false.
Proof.
  unfold AGR.detect_swipe_right, AGR.detect_swipe_left.
  destruct (AGR.calculate_hand_velocity st lm) as [[vx vy]|];
    cbn [bind fst snd]; [|discriminate].
  intros E. injection E as E. apply andb_true_iff in E. destruct E as [E _].
  apply Z.ltb_lt in E. f_equal. apply andb_false_iff. left.
  apply Z.ltb_ge. lia.
Qed.

Lemma wave_loop_nondecreasing (xs : list Z) :
  nondecreasing xs = true -> forall n, AGR.wave_loop xs n = n.
Proof.
  induction xs as [|a xs IH]; intros H n; [reflexivity|].
  destruct xs as [|b [|c r]]; [reflexivity|reflexivity|].
  cbn [nondecreasing] in H. apply andb_true_iff in H. destruct H as [Hab H].
  pose proof H as Hrest. cbn [nondecreasing] in H.
  apply andb_true_iff in H. destruct H as [Hbc _].
  apply Z.leb_le in Hab, Hbc.
  cbn [AGR.wave_loop].
  replace ((a <? b) && (c <? b) || (b <? a) && (b <? c)) with false.
  - now apply IH.
  - symmetry. apply orb_false_iff. split; apply andb_false_iff.
    + right. apply Z.ltb_ge. lia.
    + left. apply Z.ltb_ge. lia.
Qed.

Lemma wave_loop_nonincreasing (xs : list Z) :
  nonincreasing xs = true -> forall n, AGR.wave_loop xs n = n.
Proof.
  induction xs as [|a xs IH]; intros H n; [reflexivity|].
  destruct xs as [|b [|c r]]; [reflexivity|reflexivity|].
  cbn [nonincreasing] in H. apply andb_true_iff in H. destruct H as [Hab H].
  pose proof H as Hrest. cbn [nonincreasing] in H.
  apply andb_true_iff in H. destruct H as [Hbc _].
  apply Z.leb_le in Hab, Hbc.
  cbn [AGR.wave_loop].
  replace ((a <? b) && (c <? b) || (b <? a) && (b <? c)) with false.
  - now apply IH.
  - symmetry. apply orb_false_iff. split; apply andb_false_iff.
    + left. apply Z.ltb_ge. lia.
    + right. apply Z.ltb_ge. lia.
Qed.

(** X15: a hand that moves steadily in one horizontal direction is never a
    wave: when the x coordinates of the last 20 centres of the history
    never decrease, or never increase, [detect_wave] returns false. *)
Theorem steady_motion_is_no_wave (st : AGR.state) (lm : list point) :
  nondecreasing (map fst (last_n 20 (AGR.hand_positions_history st))) = true
  \/ nonincreasing (map fst (last_n 20 (AGR.hand_positions_history st)))
     = true ->
  AGR.detect_wave st lm = OK false.
Proof.
  intros H. unfold AGR.detect_wave.
  destruct (len (AGR.hand_positions_history st) <? 20); [reflexivity|].
  destruct H as [H|H].
  - now rewrite (wave_loop_nondecreasing _ H).
  - now rewrite (wave_loop_nonincreasing _ H).
Qed.

Lemma y_gt_not_y_lt (lm : list point) (a b : Z) :
  HandTracker.y_gt lm a b = OK true -> HandTracker.y_lt lm a b = OK false.
Proof.
  unfold HandTracker.y_gt, HandTracker.y_lt.
  destruct (getitem lm a) as [p|]; cbn [bind]; [|discriminate].
  destruct (getitem lm b) as [q|]; cbn [bind]; [|discriminate].
  intros E. injection E as E. apply Z.ltb_lt in E. f_equal.
  apply Z.ltb_ge. lia.
Qed.

Lemma y_lt_needs (lm : list point) (a b : Z) (r : bool) :
  0 <= a -> HandTracker.y_lt lm a b = OK r -> a < len lm.
Proof.
  intros Ha E. apply Z.ltb_lt. rewrite <- getitem_is_ok by exact Ha.
  unfold HandTracker.y_lt in E. destruct (getitem lm a); [reflexivity|].
  discriminate.
Qed.

(** What a true answer of [detect_rock_on] says about the finger tests. *)
Lemma rock_on_fingers (st : AGR.state) (lm : list point) :
  AGR.detect_rock_on st lm = OK true ->
  (21 <= List.length lm)%nat
  /\ HandTracker.is_finger_up lm "index" = OK true
  /\ HandTracker.is_finger_up lm "middle" = OK false
  /\ HandTracker.is_finger_up lm "ring" = OK false
  /\ HandTracker.is_finger_up lm "pinky" = OK true.
Proof.
  unfold AGR.detect_rock_on.
  destruct (HandTracker.y_lt lm 8 6) as [i|] eqn:Ei; cbn [bind]; [|discriminate].
  destruct (HandTracker.y_gt lm 12 10) as [m|] eqn:Em; cbn [bind];
    [|discriminate].
  destruct (HandTracker.y_gt lm 16 14) as [r|] eqn:Er; cbn [bind];
    [|discriminate].
  destruct (HandTracker.y_lt lm 20 18) as [p|] eqn:Ep; cbn [bind];
    [|discriminate].
  intros E. injection E as E.
  destruct i, m, r, p; try discriminate E.
  split.
  - apply y_lt_needs in Ep; [|lia]. unfold len in Ep. lia.
  - repeat split; try assumption; now apply y_gt_not_y_lt.
Qed.

(** What a true answer of [detect_ok_sign] says about the finger tests and
    the tip distance. *)
Lemma ok_sign_fingers (st : AGR.state) (lm : list point) :
  AGR.detect_ok_sign st lm = OK true ->
  (21 <= List.length lm)%nat
  /\ AGR.detect_pinch st lm = OK true
  /\ HandTracker.is_finger_up lm "middle" = OK true
  /\ HandTracker.is_finger_up lm "ring" = OK true
  /\ HandTracker.is_finger_up lm "pinky" = OK true.
Proof.
  unfold AGR.detect_ok_sign, AGR.detect_pinch.
  destruct (getitem lm 4) as [t|]; cbn [bind]; [|discriminate].
  destruct (getitem lm 8) as [i|]; cbn [bind]; [|discriminate].
  destruct (getitem lm 3) as [t3|]; cbn [bind]; [|discriminate].
  destruct (getitem lm 6) as [i6|]; cbn [bind]; [|discriminate].
  destruct (HandTracker.y_lt lm 12 10) as [m|] eqn:Em; cbn [bind];
    [|discriminate].
  destruct (HandTracker.y_lt lm 16 14) as [r|] eqn:Er; cbn [bind];
    [|discriminate].
  destruct (HandTracker.y_lt lm 20 18) as [p|] eqn:Ep; cbn [bind];
    [|discriminate].
  intros E. injection E as E.
  destruct (flt (AGR.dist t i) (of_int 30)), m, r, p; try discriminate E.
  split.
  - apply y_lt_needs in Ep; [|lia]. unfold len in Ep. lia.
  - repeat split; assumption.
Qed.

(** X16: when [detect_ok_sign] answers true, [detect_pinch] answers true on
    the same landmarks, and the frame has at least three fingers up: its
    static label is [three], [four] or [open_hand]. *)
Theorem ok_sign_implies_pinch (st : AGR.state) (lm : list point) :
  AGR.detect_ok_sign st lm = OK true ->
  AGR.detect_pinch st lm = OK true
  /\ exists g, HandTracker.raw_gesture lm = OK g
               /\ In g ["three"; "four"; "open_hand"].
Proof.
  intros H. destruct (ok_sign_fingers st lm H) as (Hlen & Hp & Hm & Hr & Hk).
  split; [exact Hp|].
  destruct (fingers_of_frame lm Hlen) as (fs & Hfs & _ & _ & Em & Er & Ek).
  exists (static_label fs). split; [now apply raw_gesture_of_frame|].
  rewrite Hm in Em. rewrite Hr in Er. rewrite Hk in Ek.
  injection Em as Em. injection Er as Er. injection Ek as Ek.
  destruct fs as [t i m r k]. cbn [middle ring pinky] in *. subst m r k.
  destruct t, i; cbv; tauto.
Qed.

(** X17: when [detect_rock_on] answers true, the static label of the frame
    is [two] or [three] (never [peace]), and [detect_ok_sign] does not
    answer true on the same landmarks. *)
Theorem rock_on_static_label (st : AGR.state) (lm : list point) :
  AGR.detect_rock_on st lm = OK true ->
  (exists g, HandTracker.raw_gesture lm = OK g /\ In g ["two"; "three"])
  /\ AGR.detect_ok_sign st lm <> OK true.
Proof.
  intros H. destruct (rock_on_fingers st lm H) as (Hlen & Hi & Hm & Hr & Hk).
  split.
  - destruct (fingers_of_frame lm Hlen) as (fs & Hfs & _ & Ei & Em & Er & Ek).
    exists (static_label fs). split; [now apply raw_gesture_of_frame|].
    rewrite Hi in Ei. rewrite Hm in Em. rewrite Hr in Er. rewrite Hk in Ek.
    injection Ei as Ei. injection Em as Em.
    injection Er as Er. injection Ek as Ek.
    destruct fs as [t i m r k]. cbn [index middle ring pinky] in *.
    subst i m r k. destruct t; cbv; tauto.
  - intros Hok. destruct (ok_sign_fingers st lm Hok) as (_ & _ & Hm' & _).
    congruence.
Qed.

End MotionDetectors.

Lemma swipes_exclusive_witness :
  AGR.detect_swipe_left resting moved_frame = OK false.
Proof. apply swipes_exclusive. reflexivity. Defined.

Lemma steady_motion_is_no_wave_witness :
  AGR.detect_wave
    {| AGR.hand_positions_history := map (fun n => (Z.of_nat n * 7, 0)) (seq 0 25);
       AGR.position_history_size := 30 |} rest_frame = OK false.
Proof. apply steady_motion_is_no_wave. left. reflexivity. Defined.

Lemma ok_sign_implies_pinch_witness :
  @AGR.detect_pinch integer_floats AGR.init open_frame = OK true
  /\ exists g, HandTracker.raw_gesture open_frame = OK g
               /\ In g ["three"; "four"; "open_hand"].
Proof. apply (@ok_sign_implies_pinch integer_floats). reflexivity. Defined.

Lemma rock_on_static_label_witness :
  (exists g, HandTracker.raw_gesture rock_frame = OK g /\ In g ["two"; "three"])
  /\ @AGR.detect_ok_sign integer_floats AGR.init rock_frame <> OK true.
Proof. apply (@rock_on_static_label integer_floats). reflexivity. Defined.

(* ================================================================== *)
(** ** [recognize_advanced_gestures] call by call *)
(* ================================================================== *)

Section AdvancedCalls.

Context {F : FloatOps}.

Lemma swipes_after_update (st : AGR.state) (lm : list point) (c : point) :
  AGR.get_hand_center lm = OK c ->
  AGR.detect_swipe_right (AGR.update_history st c) lm = OK false
  /\ AGR.detect_swipe_left (AGR.update_history st c) lm = OK false.
Proof.
  intros Hc. unfold AGR.detect_swipe_right, AGR.detect_swipe_left.
  rewrite (velocity_after_update st lm c Hc). split; reflexivity.
Qed.






(** X19: what a successful call reports: the names of the detectors other
    than the swipes that answered true on the updated recognizer, each
    once, in the order pinch, spread, wave, circle, ok_sign, rock_on. *)
Theorem detected_in_table_order (st st' : AGR.state) (lm : list point)
    (ds : list string) :
  AGR.recognize_advanced_gestures st lm = (OK ds, st') ->
  exists p s w c o r : bool,
    AGR.detect_pinch st' lm = OK p
    /\ AGR.detect_spread st' lm = OK s
    /\ AGR.detect_wave st' lm = OK w
    /\ AGR.detect_circle st' lm = OK c
    /\ AGR.detect_ok_sign st' lm = OK o
    /\ AGR.detect_rock_on st' lm = OK r
    /\ ds = ((if p then ["pinch"] else [])
             ++ (if s then ["spread"] else [])
             ++ (if w then ["wave"] else [])
             ++ (if c then ["circle"] else [])
             ++ (if o then ["ok_sign"] else [])
             ++ (if r then ["rock_on"] else []))%list.
Proof.
  unfold AGR.recognize_advanced_gestures.
  destruct (AGR.get_hand_center lm) as [ctr|] eqn:Hc; [|discriminate].
  intros E. injection E as E <-.
  destruct (swipes_after_update st lm ctr Hc) as [Hr Hl].
  revert E. unfold AGR.gesture_patterns. cbn [AGR.detect_loop].
  rewrite Hr, Hl. cbn [bind].
  destruct (AGR.detect_pinch _ lm) as [p|]; cbn [bind]; [|discriminate].
  destruct (AGR.detect_spread _ lm) as [s|]; cbn [bind]; [|discriminate].
  destruct (AGR.detect_wave _ lm) as [w|]; cbn [bind]; [|discriminate].
  destruct (AGR.detect_circle _ lm) as [c|]; cbn [bind]; [|discriminate].
  destruct (AGR.detect_ok_sign _ lm) as [o|]; cbn [bind]; [|discriminate].
  destruct (AGR.detect_rock_on _ lm) as [r|]; cbn [bind]; [|discriminate].
  intros E. injection E as <-.
  exists p, s, w, c, o, r. repeat split.
  destruct p, s, w, c, o, r; reflexivity.
Qed.

(** With position capacity 30 the history after a call is the window of
    the 30 newest centres. *)
Lemma update_history_window (st : AGR.state) (c : point) :
  AGR.position_history_size st = 30 ->
  (List.length (AGR.hand_positions_history st) <= 30)%nat ->
  AGR.update_history st c
  = {| AGR.hand_positions_history :=
         last_n 30 (AGR.hand_positions_history st ++ [c]);
       AGR.position_history_size := 30 |}.
Proof.
  intros Hsize Hlen. unfold AGR.update_history. rewrite Hsize. f_equal.
  set (h := AGR.hand_positions_history st) in *.
  unfold len, last_n. rewrite length_app. cbn [List.length].
  destruct (Z.ltb_spec 30 (Z.of_nat (List.length h + 1))) as [Hc|Hc].
  - replace (List.length h + 1 - 30)%nat with 1%nat by lia.
    destruct h; reflexivity.
  - replace (List.length h + 1 - 30)%nat with 0%nat by lia. reflexivity.
Qed.

Lemma advanced_run_history (frames : list (list point)) :
  forall st,
    AGR.position_history_size st = 30 ->
    (List.length (AGR.hand_positions_history st) <= 30)%nat ->
    snd (advanced_run st frames)
    = {| AGR.hand_positions_history :=
           last_n 30 (AGR.hand_positions_history st ++ centres frames);
         AGR.position_history_size := 30 |}.
Proof.
  induction frames as [|f frames IH]; intros st Hsize Hlen.
  - simpl. rewrite app_nil_r, last_n_short by exact Hlen.
    destruct st. simpl in *. now subst.
  - cbn [advanced_run]. unfold AGR.recognize_advanced_gestures.
    unfold centres. cbn [flat_map]. fold (centres frames).
    destruct (AGR.get_hand_center f) as [c|e].
    + rewrite (update_history_window st c Hsize Hlen).
      specialize (IH {| AGR.hand_positions_history :=
                          last_n 30 (AGR.hand_positions_history st ++ [c]);
                        AGR.position_history_size := 30 |}).
      destruct (advanced_run _ frames) as [rs st2]. cbn [snd] in *.
      rewrite IH; [|reflexivity|cbn; rewrite last_n_length; lia].
      cbn [AGR.hand_positions_history].
      now rewrite last_n_app, <- app_assoc.
    + specialize (IH st Hsize Hlen).
      destruct (advanced_run st frames) as [rs st2]. cbn [snd app] in *.
      exact IH.
Qed.

(** X20: the position history of a recognizer is the window of the 30
    newest centres: after any sequence of calls on a fresh recognizer,
    failed calls included, it holds the centres of the last 30 frames that
    had a centre (every frame but the empty ones), oldest first, and never
    more than 30. *)
Theorem position_history_window (frames : list (list point)) :
  AGR.hand_positions_history (snd (advanced_run AGR.init frames))
  = last_n 30 (centres frames)
  /\ (List.length
        (AGR.hand_positions_history (snd (advanced_run AGR.init frames)))
      <= 30)%nat.
Proof.
  rewrite (advanced_run_history frames AGR.init); [|reflexivity|simpl; lia].
  cbn [AGR.hand_positions_history AGR.init app]. split; [reflexivity|].
  rewrite last_n_length. lia.
Qed.

(** A call adds one sample at most. *)
Lemma recognize_history_grows (st : AGR.state) (lm : list point) :
  (List.length (AGR.hand_positions_history
                  (snd (AGR.recognize_advanced_gestures st lm)))
   <= List.length (AGR.hand_positions_history st) + 1)%nat.
Proof.
  unfold AGR.recognize_advanced_gestures.
  destruct (AGR.get_hand_center lm) as [c|]; cbn [snd]; [|lia].
  unfold AGR.update_history. cbn [AGR.hand_positions_history].
  destruct (_ <? _).
  - destruct (AGR.hand_positions_history st); simpl; [lia|].
    rewrite length_app. simpl. lia.
  - rewrite length_app. simpl. lia.
Qed.

Lemma early_calls (frames : list (list point)) :
  forall st,
    (List.length (AGR.hand_positions_history st) + List.length frames <= 19)%nat ->
    Forall (fun r => forall ds, r = OK ds ->
                       ~ In "wave" ds
                       /\ ((List.length (AGR.hand_positions_history st)
                            + List.length frames <= 14)%nat ->
                           ~ In "circle" ds))
           (fst (advanced_run st frames)).
Proof.
  induction frames as [|f frames IH]; intros st Hlen; [constructor|].
  cbn [advanced_run].
  pose proof (recognize_history_grows st f) as Hgrow.
  destruct (AGR.recognize_advanced_gestures st f) as [r st1] eqn:E.
  cbn [snd List.length] in *.
  specialize (IH st1).
  destruct (advanced_run st1 frames) as [rs st2]. cbn [fst] in *.
  constructor.
  - intros ds ->.
    assert (Hloop : AGR.detect_loop st1 f AGR.gesture_patterns [] = OK ds).
    { revert E. unfold AGR.recognize_advanced_gestures.
      destruct (AGR.get_hand_center f); [|discriminate].
      intros E. injection E as E <-. exact E. }
    split; [|intros H14]; intros Hin;
      destruct (detect_loop_names _ _ _ _ _ Hloop _ Hin) as [[]|(d & Hd & Ed)];
      simpl in Hd;
      repeat (destruct Hd as [Hd|Hd];
              [first [discriminate Hd | injection Hd as <-]|]);
      try contradiction.
    + revert Ed. unfold AGR.detect_wave.
      destruct (Z.ltb_spec (len (AGR.hand_positions_history st1)) 20)
        as [|Hge]; [intros Ed; discriminate Ed|].
      unfold len in Hge. lia.
    + revert Ed. unfold AGR.detect_circle.
      destruct (Z.ltb_spec (len (AGR.hand_positions_history st1)) 15)
        as [|Hge]; [intros Ed; discriminate Ed|].
      unfold len in Hge. lia.
  - assert (Hlen1 : (List.length (AGR.hand_positions_history st1)
                     + List.length frames <= 19)%nat) by lia.
    specialize (IH Hlen1). apply Forall_forall. intros r' Hr' ds Hds.
    rewrite Forall_forall in IH. destruct (IH r' Hr' ds Hds) as [Hw Hc].
    split; [exact Hw|]. intros H14. apply Hc. lia.
Qed.

(** X21: the detectors that look at the motion need a filled history: of
    the calls on a fresh recognizer the first 19 never report [wave] and
    the first 14 never report [circle]. *)
Theorem early_calls_report_no_motion (frames : list (list point)) :
  (List.length frames <= 19)%nat ->
  Forall (fun r => forall ds, r = OK ds ->
                     ~ In "wave" ds
                     /\ ((List.length frames <= 14)%nat -> ~ In "circle" ds))
         (fst (advanced_run AGR.init frames)).
Proof.
  intros H. apply (early_calls frames AGR.init). simpl. exact H.
Qed.

End AdvancedCalls.


Lemma detected_in_table_order_witness :
  exists p s w c o r : bool,
    @AGR.detect_pinch integer_floats (AGR.update_history AGR.init (0, 2))
      open_frame = OK p
    /\ @AGR.detect_spread integer_floats (AGR.update_history AGR.init (0, 2))
         open_frame = OK s
    /\ AGR.detect_wave (AGR.update_history AGR.init (0, 2)) open_frame = OK w
    /\ @AGR.detect_circle integer_floats (AGR.update_history AGR.init (0, 2))
         open_frame = OK c
    /\ @AGR.detect_ok_sign integer_floats (AGR.update_history AGR.init (0, 2))
         open_frame = OK o
    /\ AGR.detect_rock_on (AGR.update_history AGR.init (0, 2)) open_frame
       = OK r
    /\ ["pinch"; "ok_sign"]
       = ((if p then ["pinch"] else [])
          ++ (if s then ["spread"] else [])
          ++ (if w then ["wave"] else [])
          ++ (if c then ["circle"] else [])
          ++ (if o then ["ok_sign"] else [])
          ++ (if r then ["rock_on"] else []))%list.
Proof.
  apply (@detected_in_table_order integer_floats AGR.init _ open_frame).
  reflexivity.
Defined.

Lemma early_calls_report_no_motion_witness :
  Forall (fun r => forall ds, r = OK ds ->
                     ~ In "wave" ds
                     /\ ((List.length [rest_frame; moved_frame] <= 14)%nat ->
                         ~ In "circle" ds))
         (fst (@advanced_run integer_floats AGR.init [rest_frame; moved_frame])).
Proof.
  apply (@early_calls_report_no_motion integer_floats [rest_frame; moved_frame]).
  simpl. lia.
Defined.

(* ================================================================== *)
(** ** class HandTracker, continued: distance and the info overlay *)
(* ================================================================== *)

From Stdlib Require Import DecimalString.

(** [str(n)] for an integer *)
Definition str_of_int (n : Z) : string := NilZero.string_of_int (Z.to_int n).

(** The image calls of NumPy and OpenCV that the code uses, on an image
    type that is left open.  A colour is a BGR triple; the font is always
    [FONT_HERSHEY_SIMPLEX]; the scale of a text is a rational. *)
Definition color : Type := (Z * Z * Z)%type.

Class Cv2 : Type := {
  image : Type;
  (* [np.zeros((height, width, 3), dtype=np.uint8)] *)
  zeros : Z -> Z -> image;
  (* [cv2.line(img, pt1, pt2, color, thickness)] *)
  line : image -> point -> point -> color -> Z -> image;
  (* [cv2.rectangle(img, pt1, pt2, color, thickness)] *)
  rectangle : image -> point -> point -> color -> Z -> image;
  (* [cv2.circle(img, center, radius, color, thickness)] *)
  circle : image -> point -> Z -> color -> Z -> image;
  (* [cv2.putText(img, text, org, FONT_HERSHEY_SIMPLEX, scale, color, thickness)] *)
  putText : image -> string -> point -> Q -> color -> Z -> image;
  (* [cv2.getTextSize(text, FONT_HERSHEY_SIMPLEX, scale, thickness)[0]] *)
  getTextSize : string -> Q -> Z -> Z * Z
}.

Module HandTrackerRest.

Section Methods.

Context {F : FloatOps} {C : Cv2}.

Definition calculate_distance (point1 point2 : point) : float :=
  fsqrt (of_int ((fst point1 - fst point2) ^ 2
                 + (snd point1 - snd point2) ^ 2)).


End Methods.

End HandTrackerRest.

Section DistanceAndOverlay.

Context {F : FloatOps} {C : Cv2}.

Lemma square_diff_sym (a b : Z) : (a - b) ^ 2 = (b - a) ^ 2.
Proof. lia. Qed.

(** X22: [calculate_distance] is symmetric and does not change when both
    points are shifted by the same whole number of pixels, for every
    implementation of the square root; it is the distance that the
    detectors of [AdvancedGestureRecognizer] compute inline. *)
Theorem calculate_distance_symmetric (p q : point) (dx dy : Z) :
  HandTrackerRest.calculate_distance p q
  = HandTrackerRest.calculate_distance q p
  /\ HandTrackerRest.calculate_distance
       (fst p + dx, snd p + dy) (fst q + dx, snd q + dy)
     = HandTrackerRest.calculate_distance p q
  /\ AGR.dist p q = HandTrackerRest.calculate_distance p q.
Proof.
  unfold HandTrackerRest.calculate_distance, AGR.dist. repeat split.
  - do 2 f_equal. rewrite (square_diff_sym (fst p)), (square_diff_sym (snd p)).
    reflexivity.
  - do 2 f_equal. cbn [fst snd]. f_equal; f_equal; lia.
Qed.

Lemma dist_translate (p q : point) (dx dy : Z) :
  AGR.dist (fst p + dx, snd p + dy) (fst q + dx, snd q + dy) = AGR.dist p q.
Proof.
  unfold AGR.dist. do 2 f_equal. cbn [fst snd]. f_equal; f_equal; lia.
Qed.

Lemma y_gt_translate (dx dy : Z) (lm : list point) (a b : Z) :
  HandTracker.y_gt (translate dx dy lm) a b = HandTracker.y_gt lm a b.
Proof.
  unfold HandTracker.y_gt, translate, point in *. rewrite !getitem_map.
  destruct (getitem lm a) as [p|]; cbn [bind]; [|reflexivity].
  destruct (getitem lm b) as [q|]; cbn [bind snd]; [|reflexivity].
  f_equal.
  destruct (Z.ltb_spec (snd q) (snd p)), (Z.ltb_spec (snd q + dy) (snd p + dy));
    (reflexivity || lia).
Qed.

(** X23: the detectors that look at one frame only do not depend on where
    the hand is in the image: on landmarks shifted by any whole number of
    pixels [detect_pinch], [detect_spread], [detect_ok_sign] and
    [detect_rock_on] return what they return on the landmarks themselves,
    exceptions included. *)
Theorem frame_detectors_translation_invariant (st : AGR.state)
    (dx dy : Z) (lm : list point) :
  AGR.detect_pinch st (translate dx dy lm) = AGR.detect_pinch st lm
  /\ AGR.detect_spread st (translate dx dy lm) = AGR.detect_spread st lm
  /\ AGR.detect_ok_sign st (translate dx dy lm) = AGR.detect_ok_sign st lm
  /\ AGR.detect_rock_on st (translate dx dy lm) = AGR.detect_rock_on st lm.
Proof.
  repeat split.
  - unfold AGR.detect_pinch, translate, point in *. rewrite !getitem_map.
    destruct (getitem lm 4) as [t|]; cbn [bind]; [|reflexivity].
    destruct (getitem lm 8) as [i|]; cbn [bind]; [|reflexivity].
    now rewrite dist_translate.
  - unfold AGR.detect_spread, translate, point in *. rewrite !getitem_map.
    destruct (getitem lm 4) as [t|]; cbn [bind]; [|reflexivity].
    destruct (getitem lm 8) as [i|]; cbn [bind]; [|reflexivity].
    destruct (getitem lm 12) as [m|]; cbn [bind]; [|reflexivity].
    destruct (getitem lm 16) as [r|]; cbn [bind]; [|reflexivity].
    destruct (getitem lm 20) as [k|]; cbn [bind]; [|reflexivity].
    cbn [AGR.spread_loop]. now rewrite !dist_translate.
  - unfold AGR.detect_ok_sign. rewrite !y_lt_translate.
    unfold translate, point in *. rewrite !getitem_map.
    destruct (getitem lm 4) as [t|]; cbn [bind]; [|reflexivity].
    destruct (getitem lm 8) as [i|]; cbn [bind]; [|reflexivity].
    destruct (getitem lm 3) as [t3|]; cbn [bind]; [|reflexivity].
    destruct (getitem lm 6) as [i6|]; cbn [bind]; [|reflexivity].
    now rewrite dist_translate.
  - unfold AGR.detect_rock_on.
    now rewrite !y_lt_translate, !y_gt_translate.
Qed.


End DistanceAndOverlay.

(** An implementation of the image calls for the examples: an image is the
    list of the calls that made it, oldest first, and a text is 10 pixels
    wide per character and 12 pixels high. *)
Inductive drawing : Type :=
| Zeros (height width : Z)
| Line (pt1 pt2 : point) (col : color) (thickness : Z)
| Rectangle (pt1 pt2 : point) (col : color) (thickness : Z)
| Circle (center : point) (radius : Z) (col : color) (thickness : Z)
| PutText (text : string) (org : point) (scale : Q) (col : color)
          (thickness : Z).

Definition drawing_log : Cv2 :=
  {| image := list drawing;
     zeros := fun h w => [Zeros h w];
     line := fun img a b c t => (img ++ [Line a b c t])%list;
     rectangle := fun img a b c t => (img ++ [Rectangle a b c t])%list;
     circle := fun img ctr r c t => (img ++ [Circle ctr r c t])%list;
     putText := fun img s org sc c t => (img ++ [PutText s org sc c t])%list;
     getTextSize := fun s _ _ => (Z.of_nat (String.length s) * 10, 12) |}.


(* ================================================================== *)
(** ** class HomecomingBoard ([examples/homecoming_board.py]) *)
(* ================================================================== *)

Module HomecomingBoard.

(** What [process_hand_gesture] can raise: the exceptions of the tracker,
    and [TypeError], which Python raises for [float - None]. *)
Inductive failure : Type :=
| Builtin (e : exn)
| TypeError.

(** What a call sends out of the program: [cv2.imwrite(filename, canvas)]
    and [print(text)]. *)
Inductive effect {C : Cv2} : Type :=
| Imwrite (filename : string) (canvas : image)
| Print (text : string).

Section Board.

Context {C : Cv2}.

Record state : Type := {
  width : Z;
  height : Z;
  canvas : image;
  current_color : color;
  brush_size : Z;
  is_drawing : bool;
  last_point : option point;
  colors : list (Z * color);
  show_palette : bool;
  show_instructions : bool;
  last_gesture : option string;
  gesture_start_time : option Q;
  min_gesture_time : Q
}.

(** [HomecomingBoard(width, height)] *)
Definition init (w h : Z) : state :=
  {| width := w;
     height := h;
     canvas := zeros h w;
     current_color := (0, 255, 0);
     brush_size := 5;
     is_drawing := false;
     last_point := None;
     colors := [ (1, (0, 0, 255)); (2, (0, 255, 0)); (3, (255, 0, 0));
                 (4, (0, 255, 255)); (5, (255, 0, 255)) ];
     show_palette := true;
     show_instructions := true;
     last_gesture := None;
     gesture_start_time := None;
     min_gesture_time := 0.5 |}.

(** [d[k]] with [k in d] for the palette. *)
Fixpoint palette_get (d : list (Z * color)) (k : Z) : option color :=
  match d with
  | [] => None
  | (k', v) :: r => if k =? k' then Some v else palette_get r k
  end.

(** [int(x)] for a float: truncation towards zero. *)
Definition int_of (x : Q) : Z := Z.quot (Qnum x) (Zpos (Qden x)).

(** The assignments at the end of the one-shot branches. *)
Definition with_canvas (self : state) (cv : image) (lp : option point)
    (draw : bool) : state :=
  {| width := width self; height := height self; canvas := cv;
     current_color := current_color self; brush_size := brush_size self;
     is_drawing := draw; last_point := lp; colors := colors self;
     show_palette := show_palette self;
     show_instructions := show_instructions self;
     last_gesture := last_gesture self;
     gesture_start_time := gesture_start_time self;
     min_gesture_time := min_gesture_time self |}.

Definition with_start_time (self : state) (start : option Q) : state :=
  {| width := width self; height := height self; canvas := canvas self;
     current_color := current_color self; brush_size := brush_size self;
     is_drawing := is_drawing self; last_point := last_point self;
     colors := colors self; show_palette := show_palette self;
     show_instructions := show_instructions self;
     last_gesture := last_gesture self;
     gesture_start_time := start;
     min_gesture_time := min_gesture_time self |}.

Definition with_color (self : state) (c : color) : state :=
  {| width := width self; height := height self; canvas := canvas self;
     current_color := c; brush_size := brush_size self;
     is_drawing := is_drawing self; last_point := last_point self;
     colors := colors self; show_palette := show_palette self;
     show_instructions := show_instructions self;
     last_gesture := last_gesture self;
     gesture_start_time := gesture_start_time self;
     min_gesture_time := min_gesture_time self |}.

Definition with_palette (self : state) (shown : bool) : state :=
  {| width := width self; height := height self; canvas := canvas self;
     current_color := current_color self; brush_size := brush_size self;
     is_drawing := is_drawing self; last_point := last_point self;
     colors := colors self; show_palette := shown;
     show_instructions := show_instructions self;
     last_gesture := last_gesture self;
     gesture_start_time := gesture_start_time self;
     min_gesture_time := min_gesture_time self |}.

Definition with_gesture (self : state) (g : string) (start : Q) : state :=
  {| width := width self; height := height self; canvas := canvas self;
     current_color := current_color self; brush_size := brush_size self;
     is_drawing := is_drawing self; last_point := last_point self;
     colors := colors self; show_palette := show_palette self;
     show_instructions := show_instructions self;
     last_gesture := Some g;
     gesture_start_time := Some start;
     min_gesture_time := min_gesture_time self |}.

(** The branches of [process_hand_gesture] once the hold has lasted and the
    index fingertip has been read.  [save_time] is the clock reading of the
    save branch. *)
Definition act (self : state) (save_time : Q) (landmarks : list point)
    (gesture : string) (index_tip : point)
  : option failure * state * list effect :=
  if String.eqb gesture "point" then
    let cv := match last_point self with
              | Some lp => line (canvas self) lp index_tip
                             (current_color self) (brush_size self)
              | None => canvas self
              end in
    (None, with_canvas self cv (Some index_tip) true, [])
  else if String.eqb gesture "fist" then
    let cv := circle (canvas self) index_tip (brush_size self * 3)
                (0, 0, 0) (-1) in
    (None, with_canvas self cv (Some index_tip) (is_drawing self), [])
  else if String.eqb gesture "open_hand" then
    let cv := zeros (height self) (width self) in
    (None,
     with_start_time (with_canvas self cv None (is_drawing self)) None, [])
  else if String.eqb gesture "thumbs_up" then
    let filename :=
      "homecoming_board_" ++ str_of_int (int_of save_time) ++ ".jpg" in
    (None, with_start_time self None,
     [Imwrite filename (canvas self);
      Print ("Drawing saved as " ++ filename)])
  else if String.eqb gesture "peace" then
    (None,
     with_start_time (with_palette self (negb (show_palette self))) None, [])
  else if existsb (String.eqb gesture) ["two"; "three"; "four"] then
    match HandTracker.count_fingers landmarks with
    | Raise e => (Some (Builtin e), self, [])
    | OK finger_count =>
        match palette_get (colors self) finger_count with
        | Some c =>
            (None, with_start_time (with_color self c) None,
             [Print ("Color changed to " ++ str_of_int finger_count
                     ++ " fingers")])
        | None => (None, with_start_time self None, [])
        end
    end
  else
    (None, with_canvas self (canvas self) None false, []).

(** [process_hand_gesture]: the exception if one is raised, the board as
    the call leaves it, and what the call wrote and printed.
    [current_time] is the clock reading on entry. *)
Definition process_hand_gesture (self : state) (current_time save_time : Q)
    (landmarks : list point) (gesture : string)
  : option failure * state * list effect :=
  if GC.differs gesture (last_gesture self) then
    (None, with_gesture self gesture current_time, [])
  else
    match gesture_start_time self with
    | None => (Some TypeError, self, [])
    | Some start =>
        if negb (Qle_bool (min_gesture_time self) (current_time - start))
        then (None, self, [])
        else
          match getitem landmarks HandTracker.INDEX_TIP with
          | Raise e => (Some (Builtin e), self, [])
          | OK index_tip => act self save_time landmarks gesture index_tip
          end
    end.

(** One call: the two clock readings and the two arguments. *)
Record call : Type := {
  at_time : Q;
  save_at : Q;
  landmarks_of : list point;
  gesture_of : string
}.

Definition step (self : state) (c : call)
  : option failure * state * list effect :=
  process_hand_gesture self (at_time c) (save_at c) (landmarks_of c)
    (gesture_of c).

(** The board after a sequence of calls, a caller going on after each
    exception. *)
Fixpoint run (self : state) (calls : list call) : state :=
  match calls with
  | [] => self
  | c :: rest => run (snd (fst (step self c))) rest
  end.

End Board.

End HomecomingBoard.

Module HB := HomecomingBoard.

(** The gestures whose branch clears the start time. *)
Definition one_shot : list string :=
  ["open_hand"; "thumbs_up"; "peace"; "two"; "three"; "four"].



Section BoardProperties.

Context {C : Cv2}.

Lemma act_one_shot (self : HB.state) (save_time : Q) (lm : list point)
    (g : string) (tip : point) (st' : HB.state) (out : list HB.effect) :
  In g one_shot ->
  HB.act self save_time lm g tip = (None, st', out) ->
  HB.gesture_start_time st' = None
  /\ HB.last_gesture st' = HB.last_gesture self.
Proof.
  intros Hg. unfold HB.act.
  simpl in Hg.
  repeat (destruct Hg as [<-|Hg]; [cbn [String.eqb Ascii.eqb Bool.eqb existsb orb andb]|]);
    try contradiction.
  - intros [= <- _]. split; reflexivity.
  - intros [= <- _]. split; reflexivity.
  - intros [= <- _]. split; reflexivity.
  - destruct (HandTracker.count_fingers lm); [|discriminate].
    destruct (HB.palette_get _ _); intros [= <- _]; split; reflexivity.
  - destruct (HandTracker.count_fingers lm); [|discriminate].
    destruct (HB.palette_get _ _); intros [= <- _]; split; reflexivity.
  - destruct (HandTracker.count_fingers lm); [|discriminate].
    destruct (HB.palette_get _ _); intros [= <- _]; split; reflexivity.
Qed.

(** X25: the one-shot gestures of the board break the next call.  When a
    call of [process_hand_gesture] carries out the action of open_hand,
    thumbs_up, peace, two, three or four (the gesture has been held for the
    minimum time and the call returns), the start time is left [None]; the
    next call with the same gesture, whatever its landmarks and clock
    reading, raises [TypeError] from [current_time - None], and so does
    every call after it until the gesture changes; the board is left as it
    is. *)
Theorem one_shot_then_type_error (st st' : HB.state) (t save : Q)
    (lm : list point) (g : string) (start : Q) (out : list HB.effect) :
  In g one_shot ->
  HB.last_gesture st = Some g ->
  HB.gesture_start_time st = Some start ->
  (HB.min_gesture_time st <= t - start)%Q ->
  HB.process_hand_gesture st t save lm g = (None, st', out) ->
  forall t' save' lm',
    HB.process_hand_gesture st' t' save' lm' g = (Some HB.TypeError, st', []).
Proof.
  intros Hg Hl Hs Hle E t' save' lm'.
  revert E. unfold HB.process_hand_gesture at 1.
  rewrite Hl, differs_same, Hs.
  apply Qle_bool_iff in Hle. rewrite Hle. cbn [negb].
  destruct (getitem lm HandTracker.INDEX_TIP) as [tip|]; [|discriminate].
  intros E. destruct (act_one_shot st save lm g tip st' out Hg E) as [Hs' Hl'].
  unfold HB.process_hand_gesture. rewrite Hl', Hl, differs_same, Hs'.
  reflexivity.
Qed.

Lemma palette_get_In (d : list (Z * color)) (k : Z) (c : color) :
  HB.palette_get d k = Some c -> In c (map snd d).
Proof.
  induction d as [|[k' v] d IH]; simpl; [discriminate|].
  destruct (k =? k'); [intros [= ->]; now left|]. intros H. right. now apply IH.
Qed.

(** One call keeps the palette and leaves the colour in it. *)
Lemma step_color (st : HB.state) (c : HB.call) :
  In (HB.current_color st) (map snd (HB.colors st)) ->
  HB.colors (snd (fst (HB.step st c))) = HB.colors st
  /\ In (HB.current_color (snd (fst (HB.step st c))))
        (map snd (HB.colors st)).
Proof.
  intros Hin. unfold HB.step, HB.process_hand_gesture.
  destruct (GC.differs _ _); [split; [reflexivity|exact Hin]|].
  destruct (HB.gesture_start_time st); [|split; [reflexivity|exact Hin]].
  destruct (negb _); [split; [reflexivity|exact Hin]|].
  destruct (getitem _ _); [|split; [reflexivity|exact Hin]].
  unfold HB.act.
  repeat match goal with
         | |- context [if ?b then _ else _] =>
             destruct b; [split; [reflexivity|exact Hin]|]
         end;
    try (split; [reflexivity|exact Hin]).
  destruct (existsb _ _); [|split; [reflexivity|exact Hin]].
  destruct (HandTracker.count_fingers _); [|split; [reflexivity|exact Hin]].
  destruct (HB.palette_get _ _) eqn:E; [|split; [reflexivity|exact Hin]].
  split; [reflexivity|]. cbn. now apply palette_get_In in E.
Qed.

(** X26: the brush colour never leaves the palette: after any sequence of
    calls of [process_hand_gesture] on a new board, with whatever gestures,
    landmarks and clock readings, [current_color] is one of the five
    colours of [colors], and [colors] is unchanged. *)
Theorem current_color_in_palette (w h : Z) (calls : list HB.call) :
  HB.colors (HB.run (HB.init w h) calls) = HB.colors (HB.init w h)
  /\ In (HB.current_color (HB.run (HB.init w h) calls))
        (map snd (HB.colors (HB.init w h))).
Proof.
  assert (G : forall st,
             In (HB.current_color st) (map snd (HB.colors st)) ->
             HB.colors (HB.run st calls) = HB.colors st
             /\ In (HB.current_color (HB.run st calls))
                   (map snd (HB.colors st))).
  { induction calls as [|c calls IH]; intros st Hin; [split; [reflexivity|exact Hin]|].
    cbn [HB.run]. destruct (step_color st c Hin) as [Hc Hi].
    destruct (IH (snd (fst (HB.step st c)))) as [Hc' Hi'];
      [now rewrite Hc|].
    rewrite Hc in Hc', Hi'. split; assumption. }
  apply G. simpl. tauto.
Qed.





End BoardProperties.

(** A board on which open_hand has been held since reading 100. *)
Definition held_open : @HB.state drawing_log :=
  @HB.with_gesture drawing_log (@HB.init drawing_log 1280 720) "open_hand" 100.

Lemma one_shot_then_type_error_witness :
  @HB.process_hand_gesture drawing_log
    (snd (fst (@HB.process_hand_gesture drawing_log held_open 101 101
                 open_frame "open_hand")))
    101.5 101.5 open_frame "open_hand"
  = (Some HB.TypeError,
     snd (fst (@HB.process_hand_gesture drawing_log held_open 101 101
                 open_frame "open_hand")),
     []).
Proof.
  apply (@one_shot_then_type_error drawing_log held_open _ 101 101
           open_frame "open_hand" 100 []).
  - simpl. tauto.
  - reflexivity.
  - reflexivity.
  - intros H. discriminate H.
  - reflexivity.
Defined.



